(** * suiscan: the query-and-transform pipeline of [SuiDataFetcher]

    A shallow embedding of [src/data/fetcher.py].  The three operations
    of the fetcher ([get_recent_transactions], [get_wallet_balances],
    [get_transaction_summary]) are translated together with the part of
    their collaborators they rely on:

    - the clock and the [datetime]/[timedelta] arithmetic of the cutoff:
      integer microseconds as Python keeps them, the local time zone of
      [datetime.now()] and [timestamp()], and the binary64 steps of
      [timedelta(days=...)], [timestamp()] and [* 1000];
    - the remote query service, as the meaning of the three fixed query
      texts over a dataset of rows;
    - the Polars data frame, as named typed columns with nulls, and the
      expressions the fetcher evaluates on it;
    - binary64 arithmetic, through [SpecFloat] of the standard library.

    Every operation returns the trace of its [print] statements together
    with either the exception it raised or the table it returned. *)

From Stdlib Require Import ZArith QArith Qround List String Ascii Bool Lia.
From Stdlib Require Import Sorting.Sorted Sorting.Permutation.
From Stdlib Require Import Floats.SpecFloat.
Import ListNotations.

Local Open Scope Z_scope.

(** ** Exceptions and traces *)

(** The exceptions the pipeline can surface; none is caught locally. *)
Inductive Error : Type :=
| OverflowError        (* datetime / timedelta out of range *)
| ValueError           (* a year out of range, a NaN *)
| QueryRejected        (* the remote service refused the query *)
| ColumnNotFound (name : string)
| ShapeError
| InvalidOperation.    (* strict cast or arithmetic on a wrong dtype *)

(** The argument [days] of the fetcher: a Python [int] or a Python
    [float] (binary64). *)
Inductive Days : Type :=
| DInt (n : Z)
| DFloat (x : spec_float).

(** One constructor per [print] statement of the fetcher. *)
Inductive Event : Type :=
| FetchingRecent (days : Days) (limit : Z)
| FetchedTransactions (rows : nat)
| FetchingBalancesFor (addresses : nat)
| FetchingTop (limit : Z)
| FetchedBalances (rows : nat)
| FetchingSummary (days : Days)
| GeneratedSummary (rows : nat).

Definition Trace := list Event.

(** Code that may raise. *)
Definition Exc (A : Type) : Type := (Error + A)%type.

Definition exc_bind {A B} (m : Exc A) (k : A -> Exc B) : Exc B :=
  match m with
  | inl e => inl e
  | inr a => k a
  end.

(** Code that prints and may raise: the prints made so far are kept when
    an exception leaves the function. *)
Definition IO (A : Type) : Type := (Trace * Exc A)%type.

Definition io_ret {A} (a : A) : IO A := ([], inr a).

Definition io_bind {A B} (m : IO A) (k : A -> IO B) : IO B :=
  match m with
  | (t, inl e) => (t, inl e)
  | (t, inr a) => let '(t', r) := k a in (t ++ t', r)
  end.

Definition print (e : Event) : IO unit := ([e], inr tt).

Definition lift {A} (m : Exc A) : IO A := ([], m).

Declare Scope exc_scope.
Declare Scope io_scope.
Delimit Scope exc_scope with exc.
Delimit Scope io_scope with io.

Notation "x <- m ;; k" := (exc_bind m (fun x => k))
  (at level 61, m at next level, right associativity) : exc_scope.
Notation "x <- m ;; k" := (io_bind m (fun x => k))
  (at level 61, m at next level, right associativity) : io_scope.
Notation "m ;;; k" := (io_bind m (fun _ => k))
  (at level 61, right associativity) : io_scope.

(** ** Binary64 arithmetic *)

Module Float64.

Definition prec : Z := 53.
Definition emax : Z := 1024.

Definition t := spec_float.

(** Conversion of an integer, rounding to nearest, ties to even. *)
Definition of_int (z : Z) : t := binary_normalize prec emax z 0 false.

Definition add (x y : t) : t := SFadd prec emax x y.
Definition div (x y : t) : t := SFdiv prec emax x y.
Definition mul (x y : t) : t := SFmul prec emax x y.

Definition is_finite (x : t) : bool :=
  match x with
  | S754_zero _ | S754_finite _ _ _ => true
  | S754_infinity _ | S754_nan => false
  end.

(** The integer part of a finite float, towards zero. *)
Definition trunc (x : t) : option Z :=
  match x with
  | S754_zero _ => Some 0
  | S754_finite s m e =>
      let a := if 0 <=? e then Zpos m * 2 ^ e else Zpos m / 2 ^ (- e) in
      Some (if s then - a else a)
  | S754_infinity _ | S754_nan => None
  end.

(** The fractional part of a finite float, of the sign of the float:
    what C's [modf] leaves beside the integer part.  It is a float, no
    rounding takes place. *)
Definition frac (x : t) : t :=
  match x with
  | S754_finite s m e =>
      if 0 <=? e then S754_zero s
      else
        let r := Zpos m mod 2 ^ (- e) in
        binary_normalize prec emax (if s then - r else r) e s
  | _ => x
  end.

(** The number a finite float stands for. *)
Definition value (x : t) : Q :=
  match x with
  | S754_finite s m e =>
      let n := if s then Zneg m else Zpos m in
      if 0 <=? e then inject_Z (n * 2 ^ e)
      else Qmake n (2 ^ Z.to_pos (- e))
  | _ => 0
  end.

End Float64.

(** ** The clock and the cutoff *)

Module Clock.

(** A naive [datetime], as [datetime.now()] returns it: whole
    microseconds of the local wall clock, counted from the wall-clock
    reading 1970-01-01T00:00:00. *)
Definition datetime := Z.

(** [datetime.min] and [datetime.max]: 0001-01-01T00:00:00 and
    9999-12-31T23:59:59.999999. *)
Definition MIN_DATETIME : datetime := -62135596800000000.
Definition MAX_DATETIME : datetime := 253402300799999999.

Definition US_PER_DAY : Z := 86400000000.
Definition MAX_DELTA_DAYS : Z := 999999999.

(** A number of microseconds rounded to the nearest whole one, ties to
    even. *)
Definition round_half_even (q : Q) : Z :=
  let f := Qfloor q in
  match Qcompare (q - inject_Z f) (1 # 2) with
  | Lt => f
  | Gt => f + 1
  | Eq => if Z.even f then f else f + 1
  end.

(** The microseconds of [days] days.  Whole days are exact.  Of a float,
    the integer part is exact too; the fractional part is multiplied by
    86400000000 in binary64, and that product is rounded to a whole
    microsecond, ties to even.  NaN and the infinities have no integer
    part. *)
Definition microseconds (days : Days) : Exc Z :=
  match days with
  | DInt n => inr (n * US_PER_DAY)
  | DFloat x =>
      match x with
      | S754_nan => inl ValueError
      | S754_infinity _ => inl OverflowError
      | _ =>
          match Float64.trunc x with
          | Some intpart =>
              let dnum := Float64.mul (Float64.of_int US_PER_DAY) (Float64.frac x) in
              inr (intpart * US_PER_DAY + round_half_even (Float64.value dnum))
          | None => inl OverflowError
          end
      end
  end.

(** [timedelta(days=days)]: the duration in microseconds; more than
    999999999 days either way raise [OverflowError]. *)
Definition timedelta (days : Days) : Exc Z :=
  (us <- microseconds days ;;
   if (- MAX_DELTA_DAYS <=? us / US_PER_DAY) && (us / US_PER_DAY <=? MAX_DELTA_DAYS)
   then inr us else inl OverflowError)%exc.

(** [datetime - timedelta], on the wall clock: a result outside years
    1..9999 raises. *)
Definition datetime_sub (d : datetime) (delta : Z) : Exc datetime :=
  let r := d - delta in
  if (MIN_DATETIME <=? r) && (r <=? MAX_DATETIME) then inr r else inl OverflowError.

(** The zone of the process, as [time.localtime] shows it: the seconds
    of the local wall clock at a POSIX time, both counted from their
    1970-01-01T00:00:00. *)
Definition Zone := Z -> Z.

Definition MIN_SECONDS : Z := -62135596800.
Definition MAX_SECONDS : Z := 253402300799.
Definition max_fold_seconds : Z := 24 * 3600.

(** The local wall clock at POSIX time [u]; a reading outside years
    1..9999 is a [ValueError]. *)
Definition local (zone : Zone) (u : Z) : Exc Z :=
  let t := zone u in
  if (MIN_SECONDS <=? t) && (t <=? MAX_SECONDS) then inr t else inl ValueError.

(** The POSIX time at which the local wall clock reads [t], for a naive
    datetime of fold 0: the offset found at [t] is tried, then the one
    found a day earlier; a reading the wall clock skips is moved on by
    the gap, one it shows twice is taken the first time. *)
Definition local_to_seconds (zone : Zone) (t : Z) : Exc Z :=
  (lt <- local zone t ;;
   let a := lt - t in
   let u1 := t - a in
   t1 <- local zone u1 ;;
   let after (b : Z) : Exc Z :=
     let u2 := t - b in
     t2 <- local zone u2 ;;
     inr (if t2 =? t then u2
          else if t1 =? t then u1
          else Z.max u1 u2) in
   if t1 =? t then
     lt' <- local zone (u1 - max_fold_seconds) ;;
     let b := lt' - (u1 - max_fold_seconds) in
     if a =? b then inr u1 else after b
   else after (t1 - u1))%exc.

(** [datetime.timestamp()] of a naive datetime: the POSIX seconds of its
    wall-clock second, plus its microseconds over 1e6, in binary64. *)
Definition timestamp (zone : Zone) (d : datetime) : Exc Float64.t :=
  (seconds <- local_to_seconds zone (d / 1000000) ;;
   inr (Float64.add (Float64.of_int seconds)
          (Float64.div (Float64.of_int (d mod 1000000))
                       (Float64.of_int 1000000))))%exc.

(** Python's [int(x)] on a float: truncation towards zero. *)
Definition py_int (x : Float64.t) : Exc Z :=
  match x with
  | S754_nan => inl ValueError
  | _ => match Float64.trunc x with
         | Some z => inr z
         | None => inl OverflowError
         end
  end.

(** Lines 40-41 and 135-136 of the fetcher:
    [cutoff_date = datetime.now() - timedelta(days=days)] and
    [cutoff_timestamp = int(cutoff_date.timestamp() * 1000)]. *)
Definition cutoff_timestamp (zone : Zone) (now : datetime) (days : Days) : Exc Z :=
  (delta <- timedelta days ;;
   cutoff_date <- datetime_sub now delta ;;
   ts <- timestamp zone cutoff_date ;;
   py_int (Float64.mul ts (Float64.of_int 1000)))%exc.

(** Two zones: UTC, and Paris with its rules for 2026 (one hour ahead of
    UTC, two between 29 March and 25 October, 01:00 UTC). *)
Definition utc : Zone := fun u => u.

Definition paris_2026 : Zone :=
  fun u => if (1774746000 <=? u) && (u <? 1792890000) then u + 7200 else u + 3600.

End Clock.

(** ** Decimal integers in strings *)

Definition INT64_MIN : Z := - 2 ^ 63.
Definition INT64_MAX : Z := 2 ^ 63 - 1.

Definition in_int64 (z : Z) : bool := (INT64_MIN <=? z) && (z <=? INT64_MAX).

Definition digit_of (c : ascii) : option Z :=
  let n := Z.of_nat (nat_of_ascii c) in
  if (48 <=? n) && (n <=? 57) then Some (n - 48) else None.

Fixpoint parse_digits (acc : Z) (s : string) : option Z :=
  match s with
  | EmptyString => Some acc
  | String c rest =>
      match digit_of c with
      | Some d => parse_digits (10 * acc + d) rest
      | None => None
      end
  end.

Definition parse_nat (s : string) : option Z :=
  match s with
  | EmptyString => None
  | _ => parse_digits 0 s
  end.

(** A string read as a signed 64-bit integer: an optional sign, at least
    one decimal digit, nothing else, and a value that fits.  Both the
    strict cast of the data frame and the [CAST( AS INT64)] of the
    query service are read this way. *)
Definition parse_int64 (s : string) : option Z :=
  let r :=
    match s with
    | String "-" rest => option_map Z.opp (parse_nat rest)
    | String "+" rest => parse_nat rest
    | _ => parse_nat s
    end in
  match r with
  | Some z => if in_int64 z then Some z else None
  | None => None
  end.

(** ** Data frames *)

Module Polars.

(** A column: one dtype, every cell possibly null. *)
Inductive Series : Type :=
| Utf8 (cells : list (option string))
| Int64 (cells : list (option Z))
| Float64 (cells : list (option Float64.t))
| Boolean (cells : list (option bool))
| Datetime (cells : list (option Z))     (* milliseconds since the epoch *)
| Date (cells : list (option Z)).        (* days since the epoch *)

Definition series_len (s : Series) : nat :=
  match s with
  | Utf8 l => List.length l
  | Int64 l | Datetime l | Date l => List.length l
  | Float64 l => List.length l
  | Boolean l => List.length l
  end.

(** Named columns, in order. *)
Definition DataFrame := list (string * Series).

(** [len(df)] *)
Definition height (df : DataFrame) : nat :=
  match df with
  | [] => O
  | (_, s) :: _ => series_len s
  end.

Fixpoint lookup (df : DataFrame) (name : string) : option Series :=
  match df with
  | [] => None
  | (n, s) :: rest => if String.eqb n name then Some s else lookup rest name
  end.

(** [pl.col(name)] evaluated on a frame. *)
Definition col (df : DataFrame) (name : string) : Exc Series :=
  match lookup df name with
  | Some s => inr s
  | None => inl (ColumnNotFound name)
  end.

(** A column of an existing name is replaced in place, a new one goes
    last. *)
Fixpoint set_column (df : DataFrame) (name : string) (s : Series) : DataFrame :=
  match df with
  | [] => [(name, s)]
  | (n, s0) :: rest =>
      if String.eqb n name then (n, s) :: rest
      else (n, s0) :: set_column rest name s
  end.

(** [df.with_columns([...])], the expressions already evaluated on [df]:
    every new column must be as long as the frame. *)
Definition with_columns (df : DataFrame) (cols : list (string * Series))
  : Exc DataFrame :=
  if forallb (fun c => Nat.eqb (series_len (snd c)) (height df)) cols
  then inr (fold_left (fun d c => set_column d (fst c) (snd c)) cols df)
  else inl ShapeError.

(** Cells mapped one by one, nulls kept, the first failure raised. *)
Fixpoint map_strict {A B} (f : A -> option B) (l : list (option A))
  : Exc (list (option B)) :=
  match l with
  | [] => inr []
  | None :: rest => (r <- map_strict f rest ;; inr (None :: r))%exc
  | Some a :: rest =>
      match f a with
      | Some b => (r <- map_strict f rest ;; inr (Some b :: r))%exc
      | None => inl InvalidOperation
      end
  end.

Definition float_to_int64 (x : Float64.t) : option Z :=
  match Float64.trunc x with
  | Some z => if in_int64 z then Some z else None
  | None => None
  end.

(** [expr.cast(pl.Int64)], strict. *)
Definition cast_int64 (s : Series) : Exc Series :=
  match s with
  | Utf8 l => (r <- map_strict parse_int64 l ;; inr (Int64 r))%exc
  | Int64 l | Datetime l | Date l => inr (Int64 l)
  | Float64 l => (r <- map_strict float_to_int64 l ;; inr (Int64 r))%exc
  | Boolean l => inr (Int64 (map (option_map (fun b : bool => if b then 1 else 0)) l))
  end.

(** The cells of a numeric column as binary64. *)
Definition to_float64 (s : Series) : Exc (list (option Float64.t)) :=
  match s with
  | Int64 l => inr (map (option_map Float64.of_int) l)
  | Float64 l => inr l
  | _ => inl InvalidOperation
  end.

Definition lift2 {A} (f : A -> A -> A) (x y : option A) : option A :=
  match x, y with
  | Some a, Some b => Some (f a b)
  | _, _ => None
  end.

Fixpoint zip_with {A} (f : A -> A -> A) (l1 l2 : list A) : list A :=
  match l1, l2 with
  | a :: r1, b :: r2 => f a b :: zip_with f r1 r2
  | _, _ => []
  end.

(** [a / b] on two columns: true division, in binary64 whatever the
    integer dtype of the operands. *)
Definition truediv (a b : Series) : Exc Series :=
  (x <- to_float64 a ;;
   y <- to_float64 b ;;
   if Nat.eqb (List.length x) (List.length y)
   then inr (Float64 (zip_with (lift2 Float64.div) x y))
   else inl ShapeError)%exc.

(** [a / k] for an integer literal [k]. *)
Definition truediv_lit (a : Series) (k : Z) : Exc Series :=
  (x <- to_float64 a ;;
   inr (Float64 (map (option_map (fun v => Float64.div v (Float64.of_int k))) x)))%exc.

Definition wrap_int64 (z : Z) : Z := (z + 2 ^ 63) mod 2 ^ 64 - 2 ^ 63.

(** [a * k] for an integer literal [k]: a float column stays float, an
    integer column wraps. *)
Definition mul_lit (a : Series) (k : Z) : Exc Series :=
  match a with
  | Float64 l => inr (Float64 (map (option_map (fun v => Float64.mul v (Float64.of_int k))) l))
  | Int64 l => inr (Int64 (map (option_map (fun v => wrap_int64 (v * k))) l))
  | _ => inl InvalidOperation
  end.

(** [pl.from_epoch(expr, time_unit="ms")]: the integer reinterpreted as
    a point in time. *)
Definition from_epoch_ms (s : Series) : Exc Series :=
  (r <- cast_int64 s ;;
   match r with
   | Int64 l => inr (Datetime l)
   | _ => inl InvalidOperation
   end)%exc.

End Polars.

(** ** The remote query service *)

Module Remote.

(** The two tables of the dataset, with the columns the queries read. *)
Record Transaction : Type := {
  transaction_digest : string;
  timestamp_ms : Z;
  sender : string;
  gas_used : string;
  gas_price : string;
  success : option bool;           (* NULL when neither true nor false *)
  effects_status : string;
  checkpoint_sequence_number : Z
}.

Record Object : Type := {
  owner : string;
  coin_type : string;
  balance : string;
  object_id : string
}.

Record Dataset : Type := {
  transactions : list Transaction;
  objects : list Object
}.

(** *** ORDER BY ... DESC and LIMIT *)

(** Rows already in descending order of a key receive one more row; rows
    of equal key come in the order in which the service met them (see
    [same_content] below). *)
Fixpoint insert_desc {A} (key : A -> Z) (x : A) (l : list A) : list A :=
  match l with
  | [] => [x]
  | y :: rest =>
      if key y <=? key x then x :: l else y :: insert_desc key x rest
  end.

Definition order_by_desc {A} (key : A -> Z) (l : list A) : list A :=
  fold_right (insert_desc key) [] l.

(** Descending order of a key. *)
Definition desc {A} (key : A -> Z) (a b : A) : Prop := key b <= key a.

(** [LIMIT n]: a negative count, or one beyond INT64, is refused. *)
Definition limit_rows {A} (n : Z) (l : list A) : Exc (list A) :=
  if (0 <=? n) && (n <=? INT64_MAX) then inr (firstn (Z.to_nat n) l)
  else inl QueryRejected.

(** *** The transactions query *)

(** [WHERE timestamp_ms >= cutoff] *)
Definition window (ds : Dataset) (cutoff : Z) : list Transaction :=
  filter (fun t => cutoff <=? timestamp_ms t) (transactions ds).

(** [SELECT ... FROM transactions WHERE timestamp_ms >= cutoff
    ORDER BY timestamp_ms DESC LIMIT limit] *)
Definition recent_transactions (ds : Dataset) (cutoff limit : Z)
  : Exc (list Transaction) :=
  limit_rows limit (order_by_desc timestamp_ms (window ds cutoff)).

(** *** The text of a WHERE clause *)

(** What the service reads in the filter of the balance query. *)
Inductive Where : Type :=
| OwnerIn (owners : list string)
| CoinTypeIs (coin : string).

Inductive Lex : Type :=
| Open        (* a literal is to start *)
| Inside      (* within the quotes of a literal *)
| Escaped     (* after a backslash within a literal *)
| Closed      (* after the closing quote *)
| Comma.      (* after the comma between two literals *)

Definition LF : ascii := ascii_of_nat 10.
Definition CR : ascii := ascii_of_nat 13.
Definition TAB : ascii := ascii_of_nat 9.
Definition DQUOTE : ascii := ascii_of_nat 34.

(** The character an escape sequence stands for. *)
Definition unescape (c : ascii) : option ascii :=
  if Ascii.eqb c "'" then Some "'"%char
  else if Ascii.eqb c DQUOTE then Some DQUOTE
  else if Ascii.eqb c "\" then Some "\"%char
  else if Ascii.eqb c "n" then Some LF
  else if Ascii.eqb c "r" then Some CR
  else if Ascii.eqb c "t" then Some TAB
  else None.

Definition push (c : ascii) (r : option (list string)) : option (list string) :=
  match r with
  | Some (lit :: more) => Some (String c lit :: more)
  | _ => None
  end.

(** Single-quoted literals read off a text.  With [paren] they are the
    items of a parenthesised list, separated by a comma and a space;
    without, the text is one literal.  A quote ends the literal it is
    in, wherever it comes from. *)
Fixpoint read_literals (paren : bool) (st : Lex) (s : string)
  : option (list string) :=
  match s with
  | EmptyString =>
      match st with
      | Closed => if paren then None else Some []
      | _ => None
      end
  | String c rest =>
      match st with
      | Open =>
          if Ascii.eqb c "'" then read_literals paren Inside rest else None
      | Inside =>
          if Ascii.eqb c "'" then
            option_map (cons EmptyString) (read_literals paren Closed rest)
          else if Ascii.eqb c "\" then read_literals paren Escaped rest
          else if Ascii.eqb c LF || Ascii.eqb c CR then None
          else push c (read_literals paren Inside rest)
      | Escaped =>
          match unescape c with
          | Some c' => push c' (read_literals paren Inside rest)
          | None => None
          end
      | Closed =>
          if paren then
            if Ascii.eqb c ")" then
              match rest with EmptyString => Some [] | _ => None end
            else if Ascii.eqb c "," then read_literals paren Comma rest
            else None
          else None
      | Comma =>
          if Ascii.eqb c " " then read_literals paren Open rest else None
      end
  end.

(** A character that stands for itself within a literal, and a text
    made of such characters only. *)
Definition plain_char (c : ascii) : bool :=
  negb (Ascii.eqb c "'" || Ascii.eqb c "\" || Ascii.eqb c LF || Ascii.eqb c CR).

Fixpoint plain (s : string) : bool :=
  match s with
  | EmptyString => true
  | String c rest => plain_char c && plain rest
  end.

Fixpoint strip_prefix (p s : string) : option string :=
  match p, s with
  | EmptyString, _ => Some s
  | String a p', String b s' => if Ascii.eqb a b then strip_prefix p' s' else None
  | _, _ => None
  end.

(** The two shapes of filter the fetcher means to send.  A text of any
    other shape is not given a meaning here. *)
Definition read_where (text : string) : option Where :=
  match strip_prefix "WHERE owner IN (" text with
  | Some rest => option_map OwnerIn (read_literals true Open rest)
  | None =>
      match strip_prefix "WHERE coin_type = " text with
      | Some rest =>
          match read_literals false Open rest with
          | Some [c] => Some (CoinTypeIs c)
          | _ => None
          end
      | None => None
      end
  end.

(** A row against a filter: equality of strings, case included. *)
Definition satisfies (w : Where) (o : Object) : bool :=
  match w with
  | OwnerIn owners => existsb (String.eqb (owner o)) owners
  | CoinTypeIs c => String.eqb (coin_type o) c
  end.

(** *** The balance query *)

Fixpoint map_exc {A B} (f : A -> Exc B) (l : list A) : Exc (list B) :=
  match l with
  | [] => inr []
  | a :: rest => (b <- f a ;; r <- map_exc f rest ;; inr (b :: r))%exc
  end.

(** [CAST(s AS INT64)] *)
Definition cast_int64 (s : string) : Exc Z :=
  match parse_int64 s with
  | Some z => inr z
  | None => inl QueryRejected
  end.

(** [SELECT owner, coin_type, balance, object_id FROM objects
    <where_clause> ORDER BY CAST(balance AS INT64) DESC LIMIT limit] *)
Definition wallet_balances (ds : Dataset) (where_clause : string) (limit : Z)
  : Exc (list Object) :=
  match read_where where_clause with
  | None => inl QueryRejected
  | Some w =>
      (keyed <- map_exc (fun o => k <- cast_int64 (balance o) ;; inr (k, o))
                        (filter (satisfies w) (objects ds)) ;;
       rows <- limit_rows limit (order_by_desc fst keyed) ;;
       inr (map snd rows))%exc
  end.

(** *** The summary query *)

Definition MS_PER_DAY : Z := 86400000.

(** [DATE(TIMESTAMP_MILLIS(timestamp_ms))], as days since the epoch. *)
Definition date_of (t : Transaction) : Z := timestamp_ms t / MS_PER_DAY.

Record DailySummary : Type := {
  date : Z;
  transaction_count : Z;
  unique_senders : Z;
  avg_gas_used : Float64.t;
  successful_txns : Z;
  failed_txns : Z
}.

Definition sum (l : list Z) : Z := fold_right Z.add 0 l.

Definition count {A} (l : list A) : Z := Z.of_nat (List.length l).

(** [GROUP BY DATE(...)]: the rows of one date. *)
Definition group (rows : list Transaction) (d : Z) : list Transaction :=
  filter (fun t => date_of t =? d) rows.

(** The aggregates of one group, [g] being the rows of date [d]. *)
Definition aggregate (d : Z) (g : list Transaction) : Exc DailySummary :=
  (gas <- map_exc (fun t => cast_int64 (gas_used t)) g ;;
   inr {| date := d;
          transaction_count := count g;
          unique_senders := count (nodup string_dec (map sender g));
          avg_gas_used := Float64.div (Float64.of_int (sum gas))
                                      (Float64.of_int (count gas));
          successful_txns :=
            sum (map (fun t => match success t with
                               | Some true => 1 | _ => 0 end) g);
          failed_txns :=
            sum (map (fun t => match success t with
                               | Some false => 1 | _ => 0 end) g) |})%exc.

(** [SELECT DATE(...) as date, COUNT( * ), COUNT(DISTINCT sender),
    AVG(CAST(gas_used AS INT64)), SUM(CASE ...), SUM(CASE ...)
    FROM transactions WHERE timestamp_ms >= cutoff
    GROUP BY DATE(...) ORDER BY date DESC] *)
Definition transaction_summary (ds : Dataset) (cutoff : Z)
  : Exc (list DailySummary) :=
  let rows := window ds cutoff in
  let dates := order_by_desc (fun d => d) (nodup Z.eq_dec (map date_of rows)) in
  map_exc (fun d => aggregate d (group rows d)) dates.

(** The rows of a group whose [success] is neither true nor false. *)
Definition undecided (g : list Transaction) : Z :=
  sum (map (fun t => match success t with
                     | None => 1 | Some _ => 0 end) g).

(** A table of the service is a bag of rows.  The order of the list
    that holds it here stands for the order in which the service
    happens to meet the rows, which decides nothing but the order of
    rows of equal sort key and is the service's to choose at every
    query: a dataset is unchanged when its tables hold the same rows,
    in whatever order. *)
Definition same_content (ds ds' : Dataset) : Prop :=
  Permutation (transactions ds) (transactions ds') /\
  Permutation (objects ds) (objects ds').

(** The days of a window as the summary lists them: latest first, each
    once. *)
Definition days_of (win : list Transaction) : list Z :=
  order_by_desc (fun d => d) (nodup Z.eq_dec (map date_of win)).

End Remote.

(** ** Results as data frames *)

(** [pl.from_arrow(query_job.to_arrow())] for each of the three result
    shapes: the rows laid out as columns, in the order of the SELECT. *)
Module Arrow.

Import Polars Remote.

Definition cells {R A} (f : R -> A) (rows : list R) : list (option A) :=
  map (fun r => Some (f r)) rows.

Definition of_transactions (rows : list Transaction) : DataFrame :=
  [ ("transaction_digest", Utf8 (cells transaction_digest rows));
    ("timestamp_ms", Int64 (cells timestamp_ms rows));
    ("sender", Utf8 (cells sender rows));
    ("gas_used", Utf8 (cells gas_used rows));
    ("gas_price", Utf8 (cells gas_price rows));
    ("success", Boolean (map success rows));
    ("effects_status", Utf8 (cells effects_status rows));
    ("checkpoint_sequence_number", Int64 (cells checkpoint_sequence_number rows)) ]%string.

Definition of_objects (rows : list Object) : DataFrame :=
  [ ("owner", Utf8 (cells owner rows));
    ("coin_type", Utf8 (cells coin_type rows));
    ("balance", Utf8 (cells balance rows));
    ("object_id", Utf8 (cells object_id rows)) ]%string.

Definition of_summaries (rows : list DailySummary) : DataFrame :=
  [ ("date", Date (cells date rows));
    ("transaction_count", Int64 (cells transaction_count rows));
    ("unique_senders", Int64 (cells unique_senders rows));
    ("avg_gas_used", Float64 (cells avg_gas_used rows));
    ("successful_txns", Int64 (cells successful_txns rows));
    ("failed_txns", Int64 (cells failed_txns rows)) ]%string.

End Arrow.

(** ** The fetcher *)

Module SuiDataFetcher.

Import Polars.

Local Open Scope string_scope.

(** The clock is read once per call ([datetime.now()]); the dataset is
    what the remote service holds when the query runs. *)
Section Fetcher.

Variable zone : Clock.Zone.
Variable now : Clock.datetime.
Variable ds : Remote.Dataset.

Definition get_recent_transactions (days : Days) (limit : Z) : IO DataFrame :=
  (cutoff_timestamp <- lift (Clock.cutoff_timestamp zone now days) ;;
   print (FetchingRecent days limit) ;;;
   rows <- lift (Remote.recent_transactions ds cutoff_timestamp limit) ;;
   let df := Arrow.of_transactions rows in
   ts <- lift (t <- col df "timestamp_ms" ;; from_epoch_ms t)%exc ;;
   df <- lift (with_columns df [("timestamp", ts)]) ;;
   print (FetchedTransactions (height df)) ;;;
   io_ret df)%io.

(** Python's truth value of [addresses]: [None] and the empty list are
    both false. *)
Definition truthy (addresses : option (list string)) : option (list string) :=
  match addresses with
  | Some (a :: l) => Some (a :: l)
  | _ => None
  end.

Definition where_clause (addresses : option (list string)) : string :=
  match truthy addresses with
  | Some l =>
      let addresses_str := String.concat "', '" l in
      "WHERE owner IN ('" ++ addresses_str ++ "')"
  | None => "WHERE coin_type = '0x2::sui::SUI'"
  end.

Definition get_wallet_balances (addresses : option (list string)) (limit : Z)
  : IO DataFrame :=
  (match truthy addresses with
   | Some l => print (FetchingBalancesFor (List.length l))
   | None => print (FetchingTop limit)
   end ;;;
   rows <- lift (Remote.wallet_balances ds (where_clause addresses) limit) ;;
   let df := Arrow.of_objects rows in
   raw <- lift (b <- col df "balance" ;; cast_int64 b)%exc ;;
   sui <- lift (b <- col df "balance" ;; i <- cast_int64 b ;;
                truediv_lit i 1000000000)%exc ;;
   df <- lift (with_columns df [("balance_raw", raw); ("balance_sui", sui)]) ;;
   print (FetchedBalances (height df)) ;;;
   io_ret df)%io.

(** Lines 159-161: the success rate appended to a summary table. *)
Definition add_success_rate (df : DataFrame) : Exc DataFrame :=
  (rate <- (s <- col df "successful_txns" ;;
            c <- col df "transaction_count" ;;
            q <- truediv s c ;;
            mul_lit q 100) ;;
   with_columns df [("success_rate_pct", rate)])%exc.

Definition get_transaction_summary (days : Days) : IO DataFrame :=
  (cutoff_timestamp <- lift (Clock.cutoff_timestamp zone now days) ;;
   print (FetchingSummary days) ;;;
   rows <- lift (Remote.transaction_summary ds cutoff_timestamp) ;;
   let df := Arrow.of_summaries rows in
   df <- lift (add_success_rate df) ;;
   print (GeneratedSummary (height df)) ;;;
   io_ret df)%io.

End Fetcher.

End SuiDataFetcher.

(** ** The demonstration script *)

(** The operations of the data frame library that [suiscan/main.py]
    applies to the tables it was handed. *)
Module Frame.

Import Polars.

(** [expr == b] for a Boolean literal: null where the cell is null. *)
Definition eq_lit (s : Series) (b : bool) : Exc Series :=
  match s with
  | Boolean l => inr (Boolean (map (option_map (Bool.eqb b)) l))
  | _ => inl InvalidOperation
  end.

(** The cells whose mask is true; a null mask drops the cell. *)
Fixpoint keep {A} (mask : list (option bool)) (l : list A) : list A :=
  match mask, l with
  | Some true :: m, a :: rest => a :: keep m rest
  | _ :: m, _ :: rest => keep m rest
  | _, _ => []
  end.

Definition keep_series (mask : list (option bool)) (s : Series) : Series :=
  match s with
  | Utf8 l => Utf8 (keep mask l)
  | Int64 l => Int64 (keep mask l)
  | Float64 l => Float64 (keep mask l)
  | Boolean l => Boolean (keep mask l)
  | Datetime l => Datetime (keep mask l)
  | Date l => Date (keep mask l)
  end.

(** [df.filter(mask)] *)
Definition filter (df : DataFrame) (mask : Series) : Exc DataFrame :=
  match mask with
  | Boolean m =>
      if Nat.eqb (List.length m) (height df)
      then inr (map (fun c => (fst c, keep_series m (snd c))) df)
      else inl ShapeError
  | _ => inl InvalidOperation
  end.

(** [df.select([...])], the expressions already evaluated: a frame of
    these columns alone, which must be of one length. *)
Definition select (cols : list (string * Series)) : Exc DataFrame :=
  match cols with
  | [] => inr []
  | c :: rest =>
      if forallb (fun d => Nat.eqb (series_len (snd d)) (series_len (snd c))) rest
      then inr cols else inl ShapeError
  end.

(** [expr < k] on an integer column, for an integer literal. *)
Definition lt_lit (s : Series) (k : Z) : Exc (list (option bool)) :=
  match s with
  | Int64 l => inr (map (option_map (fun v => v <? k)) l)
  | _ => inl InvalidOperation
  end.

Fixpoint map2 {A B C} (f : A -> B -> C) (l1 : list A) (l2 : list B) : list C :=
  match l1, l2 with
  | a :: r1, b :: r2 => f a b :: map2 f r1 r2
  | _, _ => []
  end.

(** [pl.when(c1).then(pl.lit(a)).when(c2).then(pl.lit(b)).otherwise(pl.lit(c))]:
    row by row, the first condition that is true decides; a null
    condition is not true. *)
Definition when_then_otherwise (c1 : list (option bool)) (a : string)
  (c2 : list (option bool)) (b c : string) : Exc Series :=
  if Nat.eqb (List.length c1) (List.length c2)
  then inr (Utf8 (map2 (fun x y =>
                          Some (match x with
                                | Some true => a
                                | _ => match y with
                                       | Some true => b
                                       | _ => c
                                       end
                                end)) c1 c2))
  else inl ShapeError.

End Frame.

(** The computations of [suiscan/main.py] on the tables of the fetcher. *)
Module Main.

Import Polars.

Local Open Scope string_scope.

(** Lines 70-72, the three numbers under "Transaction Statistics":
    [len(recent_txns)] and the heights of the table filtered on
    [success == True] and on [success == False]. *)
Definition transaction_statistics (recent_txns : DataFrame)
  : Exc (nat * nat * nat) :=
  (let total := height recent_txns in
   s <- col recent_txns "success" ;;
   m <- Frame.eq_lit s true ;;
   ok <- Frame.filter recent_txns m ;;
   s' <- col recent_txns "success" ;;
   m' <- Frame.eq_lit s' false ;;
   ko <- Frame.filter recent_txns m' ;;
   inr (total, height ok, height ko))%exc.

(** Lines 138-148, the table [gas_analysis]: the gas as an integer, the
    success flag, and the band the gas falls in. *)
Definition gas_analysis (recent_txns : DataFrame) : Exc DataFrame :=
  (gas_used_int <- (g <- col recent_txns "gas_used" ;; cast_int64 g) ;;
   success <- col recent_txns "success" ;;
   selected <- Frame.select [("gas_used_int", gas_used_int); ("success", success)] ;;
   low <- (g <- col selected "gas_used_int" ;; Frame.lt_lit g 1000000) ;;
   medium <- (g <- col selected "gas_used_int" ;; Frame.lt_lit g 5000000) ;;
   gas_category <- Frame.when_then_otherwise low "Low" medium "Medium" "High" ;;
   with_columns selected [("gas_category", gas_category)])%exc.

End Main.

(** ** A small dataset *)

Module Sample.

Import Remote.

Local Open Scope string_scope.

Definition tx (digest : string) (ts : Z) (from gas : string) (ok : option bool)
  : Transaction :=
  {| transaction_digest := digest; timestamp_ms := ts; sender := from;
     gas_used := gas; gas_price := "1000"; success := ok;
     effects_status := match ok with Some true => "success" | _ => "failure" end;
     checkpoint_sequence_number := ts / 1000 |}.

Definition coin (who kind amount : string) : Object :=
  {| owner := who; coin_type := kind; balance := amount; object_id := who |}.

(** 2026-11-04, half a millisecond past 00:00:00.000. *)
Definition now : Clock.datetime := 1793750400000500.

Definition dataset : Dataset :=
  {| transactions :=
       [ tx "d1" 1793750000000 "0xa" "10" (Some true);
         tx "d2" 1793740000000 "0xb" "20" None;
         tx "d3" 1793600000000 "0xa" "30" (Some false);
         tx "d4" 1793750000000 "0xc" "5" (Some true) ];
     objects :=
       [ coin "0xabc" "0x2::sui::SUI" "5000000000";
         coin "a" "0x2::sui::SUI" "7";
         coin "b" "0x2::sui::SUI" "12";
         coin "0xABC" "0x2::usdc::USDC" "100" ] |}.

(** The same content, met by the service in the opposite order. *)
Definition shuffled : Dataset :=
  {| transactions := rev (transactions dataset);
     objects := rev (objects dataset) |}.

(** The table a call returned, or the empty frame if it raised. *)
Definition returned (r : IO Polars.DataFrame) : Polars.DataFrame :=
  match snd r with
  | inr df => df
  | inl _ => []
  end.

Definition recent : Polars.DataFrame :=
  Eval vm_compute in
    returned (SuiDataFetcher.get_recent_transactions Clock.utc now dataset (DInt 7) 3).

Definition balances : Polars.DataFrame :=
  Eval vm_compute in
    returned (SuiDataFetcher.get_wallet_balances dataset (Some ["0xabc"; "a"]) 50).

Definition summary : Polars.DataFrame :=
  Eval vm_compute in
    returned (SuiDataFetcher.get_transaction_summary Clock.utc now dataset (DInt 7)).

(** A summary table as the service could hand it over, with a day of no
    transaction in it. *)
Definition degenerate : Polars.DataFrame :=
  [ ("transaction_count", Polars.Int64 [Some 0; Some 4]);
    ("successful_txns", Polars.Int64 [Some 0; Some 3]) ].

(** The same instant one day later. *)
Definition tomorrow : Clock.datetime := now + Clock.US_PER_DAY.

End Sample.

(** ** Calls *)

(** What a call finds when it runs: the reading of the clock and the
    content of the remote dataset. *)
Record World : Type := {
  zone : Clock.Zone;
  clock : Clock.datetime;
  remote : Remote.Dataset
}.

(** ** The specification's formulas *)

Module Spec.

(** The cutoff as the specification words it:
    floor((now - days) * 86400000), [now] counted in days. *)
Definition cutoff (now : Clock.datetime) (days : Q) : Z :=
  Qfloor ((inject_Z now / inject_Z Clock.US_PER_DAY - days) * inject_Z 86400000).

End Spec.

(** * Properties *)

From Stdlib Require Import Lqa.

(** ** Running the monads backwards *)

Lemma exc_bind_inr {A B} (m : Exc A) (k : A -> Exc B) b :
  exc_bind m k = inr b -> exists a, m = inr a /\ k a = inr b.
Proof. destruct m as [e | a]; simpl; [ discriminate | eauto ]. Qed.

Lemma io_bind_inr {A B} (m : IO A) (k : A -> IO B) tr b :
  io_bind m k = (tr, inr b) ->
  exists t1 a t2, m = (t1, inr a) /\ k a = (t2, inr b) /\ tr = t1 ++ t2.
Proof.
  destruct m as [t1 [e | a]]; simpl; [ discriminate | ].
  destruct (k a) as [t2 r] eqn:K. intros H. injection H as <- ->.
  exists t1, a, t2. auto.
Qed.

Lemma lift_inr {A} (m : Exc A) tr a :
  lift m = (tr, inr a) -> tr = [] /\ m = inr a.
Proof. unfold lift. intros H. injection H as <- ->. auto. Qed.

Lemma print_inr e tr u : print e = (tr, inr u) -> tr = [e].
Proof. unfold print. intros H. now injection H as <-. Qed.

Lemma io_ret_inr {A} (a b : A) tr : io_ret a = (tr, inr b) -> tr = [] /\ a = b.
Proof. unfold io_ret. intros H. injection H as <- ->. auto. Qed.

(** A successful run taken apart, one bind at a time. *)
Ltac run_back :=
  repeat match goal with
  | H : io_bind _ _ = (_, inr _) |- _ =>
      apply io_bind_inr in H; destruct H as (? & ? & ? & ? & H & ?)
  | H : exc_bind _ _ = inr _ |- _ =>
      apply exc_bind_inr in H; destruct H as (? & ? & H)
  | H : lift _ = (_, inr _) |- _ => apply lift_inr in H; destruct H as [? H]
  | H : print _ = (_, inr _) |- _ => apply print_inr in H
  | H : io_ret _ = (_, inr _) |- _ => apply io_ret_inr in H; destruct H as [? H]
  end.

(** ** The cutoff *)

Module ClockFacts.

Import Clock.







Lemma local_to_seconds_returns_fixed_offset zone off t :
  (forall v, zone v = v + off) ->
  MIN_SECONDS <= t + off <= MAX_SECONDS ->
  MIN_SECONDS <= t - max_fold_seconds /\ t <= MAX_SECONDS ->
  local_to_seconds zone t = inr (t - off).
Proof.
  intros Hz R1 R2.
  assert (L : forall v, MIN_SECONDS <= v + off <= MAX_SECONDS ->
                        local zone v = inr (v + off)).
  { intros v Hv. unfold local. rewrite Hz.
    replace ((MIN_SECONDS <=? v + off) && (v + off <=? MAX_SECONDS)) with true;
      [ reflexivity | ].
    symmetry. apply andb_true_intro. split; apply Z.leb_le; lia. }
  unfold max_fold_seconds in *.
  unfold local_to_seconds.
  rewrite L by exact R1. cbn [exc_bind].
  replace (t - (t + off - t)) with (t - off) by lia.
  rewrite L by lia. cbn [exc_bind].
  replace (t - off + off) with t by lia.
  rewrite Z.eqb_refl, L by (unfold max_fold_seconds; lia). cbn [exc_bind].
  replace (t - off - max_fold_seconds + off - (t - off - max_fold_seconds))
    with off by lia.
  replace (t + off - t) with off by lia.
  now rewrite Z.eqb_refl.
Qed.

(** [int] returns on every float that is a number. *)
Lemma py_int_returns x :
  Float64.is_finite x = true -> exists z, py_int x = inr z.
Proof. destruct x; simpl; try discriminate; eauto. Qed.

End ClockFacts.




(** After the epoch the floor of the specification is missed too, by the
    rounding of binary64: 8191 days back from 2026-11-04T00:00:00.001
    the product comes out just under a whole millisecond, and the cutoff
    is one less than the floor. *)
Example binary64_can_lose_a_millisecond :
  Clock.cutoff_timestamp Clock.utc 1793750400001000 (DInt 8191)
  = inr 1086048000000 /\
  Spec.cutoff 1793750400001000 (8191 # 1) = 1086048000001.
Proof. split; vm_compute; reflexivity. Qed.

(** Nor does the cutoff always go back as [days] grows: where the
    offset of the zone changes in between, it can come forward.  In
    Paris, at 03:00 on 2026-11-04, 220 days back is 02:00 on 29 March, a
    reading the wall clock skips, and 220.03 days back is 01:16:48. *)
Example cutoff_can_come_forward_across_a_change_of_offset :
  Clock.cutoff_timestamp Clock.paris_2026 1793761200000000 (DInt 220)
  = inr 1774746000000 /\
  Clock.cutoff_timestamp Clock.paris_2026 1793761200000000
    (DFloat (Float64.div (Float64.of_int 22003) (Float64.of_int 100)))
  = inr 1774747008000.
Proof. split; vm_compute; reflexivity. Qed.

(** The fraction of a day goes through one binary64 product before it is
    rounded to a microsecond. *)
Example fraction_of_a_day_is_multiplied_in_binary64 :
  Clock.timedelta (DFloat (S754_finite false 4942342148068988 (-49)))
  = inr 758536987166.
Proof. vm_compute. reflexivity. Qed.

(** ** Frames built from query results *)

Module FrameFacts.

Import Polars.

Lemma length_cells {R A} (f : R -> A) rows :
  List.length (Arrow.cells f rows) = List.length rows.
Proof. apply length_map. Qed.

Lemma map_Some_cells {R A} (f : R -> A) rows :
  Arrow.cells f rows = map Some (map f rows).
Proof. unfold Arrow.cells. now rewrite map_map. Qed.

Lemma map_strict_cells {R A B} (g : A -> option B) (f : R -> A) rows out :
  map_strict g (Arrow.cells f rows) = inr out ->
  exists vals, out = map Some vals /\
               Forall2 (fun r v => g (f r) = Some v) rows vals.
Proof.
  revert out. induction rows as [ | r rows IH]; simpl; intros out H.
  - injection H as <-. exists []. auto.
  - destruct (g (f r)) as [b | ] eqn:G; [ | discriminate ].
    apply exc_bind_inr in H. destruct H as (rest & Hrest & H).
    injection H as <-.
    destruct (IH _ Hrest) as (vals & -> & F).
    exists (b :: vals). auto.
Qed.

Lemma with_columns_one df name s :
  series_len s = height df ->
  with_columns df [(name, s)] = inr (set_column df name s).
Proof.
  intros E. unfold with_columns. simpl. now rewrite E, Nat.eqb_refl.
Qed.

Lemma with_columns_two df n1 s1 n2 s2 :
  series_len s1 = height df -> series_len s2 = height df ->
  with_columns df [(n1, s1); (n2, s2)]
  = inr (set_column (set_column df n1 s1) n2 s2).
Proof.
  intros E1 E2. unfold with_columns. simpl. now rewrite E1, E2, Nat.eqb_refl.
Qed.

End FrameFacts.

(** ** Recent transactions *)

Module RecentFacts.

Import Polars SuiDataFetcher.

Lemma height_of_transactions rows :
  height (Arrow.of_transactions rows) = List.length rows.
Proof. apply FrameFacts.length_cells. Qed.

(** What a call that returns has done: one query, and one column added
    at the end of its result. *)
Lemma get_recent_transactions_inr zone now ds days limit tr df :
  get_recent_transactions zone now ds days limit = (tr, inr df) ->
  exists cutoff rows,
    Clock.cutoff_timestamp zone now days = inr cutoff /\
    Remote.recent_transactions ds cutoff limit = inr rows /\
    df = (Arrow.of_transactions rows
          ++ [("timestamp"%string,
               Datetime (Arrow.cells Remote.timestamp_ms rows))])%list /\
    tr = [FetchingRecent days limit; FetchedTransactions (List.length rows)].
Proof.
  unfold get_recent_transactions. intros H.
  run_back. subst.
  match goal with H : Clock.cutoff_timestamp _ _ _ = inr ?c |- _ =>
    exists c end.
  match goal with H : Remote.recent_transactions _ _ _ = inr ?r |- _ =>
    exists r; rename r into rows end.
  split; [ assumption | split; [ assumption | ] ].
  match goal with H : col _ _ = inr _ |- _ =>
    change (col (Arrow.of_transactions rows) "timestamp_ms")
      with (@inr Error _ (Int64 (Arrow.cells Remote.timestamp_ms rows))) in H;
    injection H as <- end.
  match goal with H : from_epoch_ms _ = inr _ |- _ =>
    change (from_epoch_ms (Int64 (Arrow.cells Remote.timestamp_ms rows)))
      with (@inr Error _ (Datetime (Arrow.cells Remote.timestamp_ms rows))) in H;
    injection H as <- end.
  match goal with H : with_columns _ _ = inr _ |- _ =>
    rewrite FrameFacts.with_columns_one in H
      by (rewrite height_of_transactions; apply FrameFacts.length_cells);
    injection H as <- end.
  split; [ reflexivity | ].
  simpl. now rewrite FrameFacts.length_cells.
Qed.

(** With a cutoff and a limit the service accepts, the call returns. *)
Lemma get_recent_transactions_returns zone now ds days limit cutoff :
  Clock.cutoff_timestamp zone now days = inr cutoff ->
  0 <= limit <= INT64_MAX ->
  exists rows,
    Remote.recent_transactions ds cutoff limit = inr rows /\
    get_recent_transactions zone now ds days limit
    = ([FetchingRecent days limit; FetchedTransactions (List.length rows)],
       inr (Arrow.of_transactions rows
            ++ [("timestamp"%string,
                 Datetime (Arrow.cells Remote.timestamp_ms rows))])%list).
Proof.
  intros Hc Hl.
  assert (Hq : exists rows, Remote.recent_transactions ds cutoff limit = inr rows).
  { unfold Remote.recent_transactions, Remote.limit_rows.
    replace ((0 <=? limit) && (limit <=? INT64_MAX)) with true; [ eauto | ].
    symmetry. apply andb_true_intro. split; apply Z.leb_le; lia. }
  destruct Hq as [rows Hq]. exists rows. split; [ exact Hq | ].
  unfold get_recent_transactions.
  rewrite Hc. cbn [lift io_bind print]. rewrite Hq. cbn [io_bind].
  change (col (Arrow.of_transactions rows) "timestamp_ms")
    with (@inr Error _ (Int64 (Arrow.cells Remote.timestamp_ms rows))).
  cbn [exc_bind].
  change (from_epoch_ms (Int64 (Arrow.cells Remote.timestamp_ms rows)))
    with (@inr Error _ (Datetime (Arrow.cells Remote.timestamp_ms rows))).
  cbv beta iota.
  rewrite FrameFacts.with_columns_one
    by (rewrite height_of_transactions; apply FrameFacts.length_cells).
  unfold io_ret. cbv beta iota. cbn [app].
  change (height (set_column (Arrow.of_transactions rows) "timestamp"
                    (Datetime (Arrow.cells Remote.timestamp_ms rows))))
    with (List.length (Arrow.cells Remote.transaction_digest rows)).
  rewrite FrameFacts.length_cells. reflexivity.
Qed.

End RecentFacts.

(** ** ORDER BY and LIMIT *)

Module OrderFacts.

Import Remote.

Lemma firstn_In {A} n (l : list A) x : In x (firstn n l) -> In x l.
Proof.
  revert l; induction n as [ | n IH]; intros [ | y l]; simpl; try tauto.
  intros [-> | H]; auto.
Qed.

Section Desc.

Context {A : Type} (key : A -> Z).

Lemma insert_desc_perm x l : Permutation (insert_desc key x l) (x :: l).
Proof.
  induction l as [ | y l IH]; simpl; [ reflexivity | ].
  destruct (key y <=? key x); [ reflexivity | ].
  rewrite IH. apply perm_swap.
Qed.

Lemma order_by_desc_perm l : Permutation (order_by_desc key l) l.
Proof.
  induction l as [ | x l IH]; simpl; [ reflexivity | ].
  rewrite insert_desc_perm. now constructor.
Qed.

Lemma order_by_desc_In x l : In x (order_by_desc key l) <-> In x l.
Proof.
  split; apply Permutation_in;
    [ | symmetry ]; apply order_by_desc_perm.
Qed.

Lemma insert_desc_sorted x l :
  StronglySorted (desc key) l -> StronglySorted (desc key) (insert_desc key x l).
Proof.
  induction 1 as [ | y l S IH F]; simpl.
  - repeat constructor.
  - destruct (key y <=? key x) eqn:C.
    + apply Z.leb_le in C.
      constructor; [ now constructor | ].
      constructor; [ exact C | ].
      eapply Forall_impl; [ | exact F ]. unfold desc. intros; lia.
    + apply Z.leb_gt in C.
      constructor; [ exact IH | ].
      apply Forall_forall. intros z Hz.
      apply (Permutation_in _ (insert_desc_perm x l)) in Hz.
      destruct Hz as [<- | Hz]; [ unfold desc; lia | ].
      rewrite Forall_forall in F. now apply F.
Qed.

Lemma order_by_desc_sorted l : StronglySorted (desc key) (order_by_desc key l).
Proof.
  induction l; simpl; [ constructor | now apply insert_desc_sorted ].
Qed.

Lemma firstn_sorted n l : StronglySorted (desc key) l -> StronglySorted (desc key) (firstn n l).
Proof.
  intros S. revert n. induction S as [ | y l S IH F]; intros [ | n]; simpl;
    try constructor; auto.
  apply Forall_forall. intros z Hz. apply firstn_In in Hz.
  rewrite Forall_forall in F. now apply F.
Qed.

Lemma sorted_keys l :
  StronglySorted (desc key) l -> StronglySorted (fun a b => b <= a) (map key l).
Proof.
  induction 1 as [ | y l S IH F]; simpl; constructor; auto.
  apply Forall_map. exact F.
Qed.

End Desc.

Lemma limit_rows_inr {A} n (l rows : list A) :
  limit_rows n l = inr rows ->
  0 <= n /\ rows = firstn (Z.to_nat n) l /\ Z.of_nat (List.length rows) <= n.
Proof.
  unfold limit_rows. destruct (_ && _) eqn:R; [ | discriminate ].
  intros H. injection H as <-.
  apply andb_prop in R. destruct R as [R _]. apply Z.leb_le in R.
  repeat split; auto.
  pose proof (firstn_le_length (Z.to_nat n) l). lia.
Qed.

End OrderFacts.

(** C7.  The table [get_recent_transactions] returns has at most [limit]
    rows, every [timestamp_ms] in it is at or after the cutoff of the
    call, and the rows come newest first. *)
Theorem recent_transactions_bounded_windowed_newest_first
  (zone : Clock.Zone) (now : Clock.datetime) (ds : Remote.Dataset) (days : Days) (limit : Z)
  (tr : Trace) (df : Polars.DataFrame) :
  SuiDataFetcher.get_recent_transactions zone now ds days limit = (tr, inr df) ->
  exists cutoff ts,
    Clock.cutoff_timestamp zone now days = inr cutoff /\
    Polars.col df "timestamp_ms" = inr (Polars.Int64 (map Some ts)) /\
    Polars.height df = List.length ts /\
    Z.of_nat (Polars.height df) <= limit /\
    Forall (fun t => cutoff <= t) ts /\
    StronglySorted (fun a b => b <= a) ts.
Proof.
  intros H.
  apply RecentFacts.get_recent_transactions_inr in H.
  destruct H as (cutoff & rows & Hc & Hq & -> & _).
  exists cutoff, (map Remote.timestamp_ms rows).
  unfold Remote.recent_transactions in Hq.
  apply OrderFacts.limit_rows_inr in Hq. destruct Hq as (Hl & Hrows & Hlen).
  split; [ exact Hc | ].
  split; [ cbn; now rewrite FrameFacts.map_Some_cells | ].
  assert (Hh : Polars.height
                 (Arrow.of_transactions rows
                  ++ [("timestamp"%string,
                       Polars.Datetime (Arrow.cells Remote.timestamp_ms rows))])
               = List.length rows)
    by apply FrameFacts.length_cells.
  rewrite Hh, length_map.
  split; [ reflexivity | ].
  split; [ exact Hlen | ].
  split.
  - apply Forall_map, Forall_forall. intros t Ht. subst rows.
    apply OrderFacts.firstn_In in Ht.
    apply (proj1 (OrderFacts.order_by_desc_In Remote.timestamp_ms _ _)) in Ht.
    apply filter_In in Ht. destruct Ht as [_ Ht]. now apply Z.leb_le in Ht.
  - subst rows.
    apply OrderFacts.sorted_keys, OrderFacts.firstn_sorted,
      OrderFacts.order_by_desc_sorted.
Qed.

(** The sample call: a week back, at most three rows. *)
Lemma recent_transactions_bounded_windowed_newest_first_witness :
  exists cutoff ts,
    Clock.cutoff_timestamp Clock.utc Sample.now (DInt 7) = inr cutoff /\
    Polars.col Sample.recent "timestamp_ms" = inr (Polars.Int64 (map Some ts)) /\
    Polars.height Sample.recent = List.length ts /\
    Z.of_nat (Polars.height Sample.recent) <= 3 /\
    Forall (fun t => cutoff <= t) ts /\
    StronglySorted (fun a b => b <= a) ts.
Proof.
  apply (recent_transactions_bounded_windowed_newest_first
           Clock.utc Sample.now Sample.dataset (DInt 7) 3
           [FetchingRecent (DInt 7) 3; FetchedTransactions 3]).
  vm_compute. reflexivity.
Defined.

(** C9.  The table returned is the result of the query, column for
    column and row for row, with one column, the decoded [timestamp],
    added after the others: [timestamp_ms] is still there, and no row
    was dropped, moved or merged. *)
Theorem recent_transactions_only_appends
  (zone : Clock.Zone) (now : Clock.datetime) (ds : Remote.Dataset) (days : Days) (limit : Z)
  (tr : Trace) (df : Polars.DataFrame) :
  SuiDataFetcher.get_recent_transactions zone now ds days limit = (tr, inr df) ->
  exists cutoff rows,
    Clock.cutoff_timestamp zone now days = inr cutoff /\
    Remote.recent_transactions ds cutoff limit = inr rows /\
    df = (Arrow.of_transactions rows
          ++ [("timestamp"%string,
               Polars.Datetime (map (fun r => Some (Remote.timestamp_ms r)) rows))])%list /\
    Polars.col df "timestamp_ms"
    = inr (Polars.Int64 (map (fun r => Some (Remote.timestamp_ms r)) rows)) /\
    Polars.height df = List.length rows.
Proof.
  intros H.
  apply RecentFacts.get_recent_transactions_inr in H.
  destruct H as (cutoff & rows & Hc & Hq & -> & _).
  exists cutoff, rows.
  repeat split; auto.
  apply FrameFacts.length_cells.
Qed.

Lemma recent_transactions_only_appends_witness :
  exists cutoff rows,
    Clock.cutoff_timestamp Clock.utc Sample.now (DInt 7) = inr cutoff /\
    Remote.recent_transactions Sample.dataset cutoff 3 = inr rows /\
    Sample.recent
    = (Arrow.of_transactions rows
       ++ [("timestamp"%string,
            Polars.Datetime (map (fun r => Some (Remote.timestamp_ms r)) rows))])%list /\
    Polars.col Sample.recent "timestamp_ms"
    = inr (Polars.Int64 (map (fun r => Some (Remote.timestamp_ms r)) rows)) /\
    Polars.height Sample.recent = List.length rows.
Proof.
  apply (recent_transactions_only_appends
           Clock.utc Sample.now Sample.dataset (DInt 7) 3
           [FetchingRecent (DInt 7) 3; FetchedTransactions 3]).
  vm_compute. reflexivity.
Defined.

(** ** Wallet balances *)

Module BalanceFacts.

Import Polars SuiDataFetcher.

Local Open Scope string_scope.

Lemma append_nil_r s : s ++ "" = s.
Proof. induction s; simpl; congruence. Qed.

Lemma append_assoc s1 s2 s3 : (s1 ++ s2) ++ s3 = s1 ++ (s2 ++ s3).
Proof. induction s1; simpl; congruence. Qed.

(** *** Reading back the filter the fetcher wrote *)

Lemma push_not_nil c r : Remote.push c r <> Some [].
Proof. destruct r as [ [ | ? ? ] | ]; simpl; congruence. Qed.

(** Within a literal, what is read has at least that literal. *)
Lemma read_inside_not_nil paren text st :
  st = Remote.Inside \/ st = Remote.Escaped ->
  Remote.read_literals paren st text <> Some [].
Proof.
  revert st. induction text as [ | c text IH]; intros st [-> | ->]; simpl;
    try congruence.
  - destruct (Ascii.eqb c "'").
    { destruct (Remote.read_literals paren Remote.Closed text); simpl; congruence. }
    destruct (Ascii.eqb c "\"); [ apply IH; auto | ].
    destruct (_ || _); [ congruence | apply push_not_nil ].
  - destruct (Remote.unescape c); [ apply push_not_nil | congruence ].
Qed.

Lemma read_inside_plain a text :
  Remote.plain a = true ->
  Remote.read_literals true Remote.Inside (a ++ text)
  = match Remote.read_literals true Remote.Inside text with
    | Some (lit :: more) => Some ((a ++ lit) :: more)
    | _ => None
    end.
Proof.
  induction a as [ | c a IH]; simpl; intros P.
  - pose proof (read_inside_not_nil true text Remote.Inside (or_introl eq_refl)).
    destruct (Remote.read_literals true Remote.Inside text) as [ [ | ? ? ] | ];
      congruence.
  - apply andb_prop in P. destruct P as [Pc Pa].
    unfold Remote.plain_char in Pc. apply negb_true_iff in Pc.
    apply orb_false_elim in Pc. destruct Pc as [Pc Pcr].
    apply orb_false_elim in Pc. destruct Pc as [Pc Plf].
    apply orb_false_elim in Pc. destruct Pc as [Pq Pb].
    rewrite Pq, Pb, Plf, Pcr. simpl.
    rewrite (IH Pa).
    destruct (Remote.read_literals true Remote.Inside text) as [ [ | ? ? ] | ];
      reflexivity.
Qed.

Lemma read_items l :
  l <> [] -> forallb Remote.plain l = true ->
  Remote.read_literals true Remote.Inside (String.concat "', '" l ++ "')")
  = Some l.
Proof.
  induction l as [ | a l IH]; [ congruence | ].
  intros _ P. simpl in P. apply andb_prop in P. destruct P as [Pa Pl].
  destruct l as [ | b l].
  - simpl String.concat. rewrite (read_inside_plain _ _ Pa). simpl.
    now rewrite append_nil_r.
  - change (String.concat "', '" (a :: b :: l))
      with (a ++ "', '" ++ String.concat "', '" (b :: l)).
    rewrite !append_assoc, (read_inside_plain _ _ Pa).
    change (Remote.read_literals true Remote.Inside
              ("', '" ++ String.concat "', '" (b :: l) ++ "')"))
      with (option_map (cons EmptyString)
              (Remote.read_literals true Remote.Inside
                 (String.concat "', '" (b :: l) ++ "')"))).
    rewrite IH by (auto; congruence). simpl.
    now rewrite append_nil_r.
Qed.

Lemma read_where_owner_in l :
  l <> [] -> forallb Remote.plain l = true ->
  Remote.read_where (where_clause (Some l)) = Some (Remote.OwnerIn l).
Proof.
  intros N P. destruct l as [ | a l]; [ congruence | ].
  unfold where_clause, truthy.
  change (Remote.read_where ("WHERE owner IN ('" ++ String.concat "', '" (a :: l) ++ "')"))
    with (option_map Remote.OwnerIn
            (Remote.read_literals true Remote.Inside
               (String.concat "', '" (a :: l) ++ "')"))).
  now rewrite read_items.
Qed.

Lemma satisfies_owner_in owners o :
  Remote.satisfies (Remote.OwnerIn owners) o = true <-> In (Remote.owner o) owners.
Proof.
  simpl. rewrite existsb_exists. split.
  - intros (x & Hx & E). apply String.eqb_eq in E. now subst.
  - intros H. exists (Remote.owner o). split; [ exact H | apply String.eqb_refl ].
Qed.

(** *** The rows the query returns *)

Lemma map_exc_keyed (l : list Remote.Object) keyed :
  Remote.map_exc (fun o => (k <- Remote.cast_int64 (Remote.balance o) ;;
                            inr (k, o))%exc) l = inr keyed ->
  map snd keyed = l /\
  Forall (fun p => parse_int64 (Remote.balance (snd p)) = Some (fst p)) keyed.
Proof.
  revert keyed. induction l as [ | o l IH]; simpl; intros keyed H.
  - injection H as <-. auto.
  - run_back.
    match goal with H : inr _ = inr keyed |- _ => injection H as <- end.
    match goal with H : inr _ = inr _ |- _ => injection H as <- end.
    match goal with H : Remote.cast_int64 _ = inr ?k |- _ =>
      unfold Remote.cast_int64 in H;
      destruct (parse_int64 (Remote.balance o)) eqn:E; [ | discriminate ];
      injection H as -> end.
    match goal with H : Remote.map_exc _ l = inr _ |- _ =>
      destruct (IH _ H) as [IH1 IH2] end.
    simpl. split; [ now rewrite IH1 | constructor; auto ].
Qed.

Lemma wallet_balances_inr ds text limit rows :
  Remote.wallet_balances ds text limit = inr rows ->
  exists w keyed,
    Remote.read_where text = Some w /\
    map snd keyed = filter (Remote.satisfies w) (Remote.objects ds) /\
    Forall (fun p => parse_int64 (Remote.balance (snd p)) = Some (fst p)) keyed /\
    0 <= limit /\
    rows = map snd (firstn (Z.to_nat limit) (Remote.order_by_desc fst keyed)).
Proof.
  unfold Remote.wallet_balances.
  destruct (Remote.read_where text) as [w | ]; [ | discriminate ].
  intros H. run_back.
  match goal with H : inr _ = inr rows |- _ => injection H as <- end.
  match goal with H : Remote.map_exc _ _ = inr ?k |- _ =>
    apply map_exc_keyed in H; destruct H as [Hm Hp]; exists w, k end.
  match goal with H : Remote.limit_rows _ _ = inr _ |- _ =>
    apply OrderFacts.limit_rows_inr in H; destruct H as (Hl & -> & _) end.
  auto.
Qed.

Lemma parse_int64_range s z :
  parse_int64 s = Some z -> INT64_MIN <= z <= INT64_MAX.
Proof.
  unfold parse_int64.
  destruct (match s with
            | String "-" rest => option_map Z.opp (parse_nat rest)
            | String "+" rest => parse_nat rest
            | _ => parse_nat s
            end) as [v | ]; [ | discriminate ].
  unfold in_int64. destruct (_ && _) eqn:R; [ | discriminate ].
  intros H. injection H as <-.
  apply andb_prop in R. destruct R as [R1 R2].
  apply Z.leb_le in R1, R2. lia.
Qed.

Lemma height_of_objects rows :
  height (Arrow.of_objects rows) = List.length rows.
Proof. apply FrameFacts.length_cells. Qed.

(** What a call that returns has done: one query, and two columns added
    at the end of its result. *)
Lemma get_wallet_balances_inr ds addresses limit tr df :
  get_wallet_balances ds addresses limit = (tr, inr df) ->
  exists rows raw,
    Remote.wallet_balances ds (where_clause addresses) limit = inr rows /\
    Forall2 (fun o z => parse_int64 (Remote.balance o) = Some z) rows raw /\
    df = (Arrow.of_objects rows
          ++ [("balance_raw", Int64 (map Some raw));
              ("balance_sui",
               Float64 (map (fun z => Some (Float64.div (Float64.of_int z)
                                              (Float64.of_int 1000000000)))
                            raw))])%list.
Proof.
  unfold get_wallet_balances. intros H.
  run_back. subst.
  match goal with H : Remote.wallet_balances _ _ _ = inr ?r |- _ =>
    rename r into rows; rename H into Hq end.
  repeat match goal with H : col _ _ = inr _ |- _ =>
    change (col (Arrow.of_objects rows) "balance")
      with (@inr Error _ (Utf8 (Arrow.cells Remote.balance rows))) in H;
    injection H as <- end.
  repeat match goal with H : cast_int64 (Utf8 _) = inr _ |- _ =>
    unfold cast_int64 in H; apply exc_bind_inr in H;
    destruct H as (? & ? & H); injection H as <- end.
  match goal with
  | H1 : map_strict _ _ = inr ?a, H2 : map_strict _ _ = inr ?b |- _ =>
      assert (a = b) by congruence; subst b; clear H2;
      apply FrameFacts.map_strict_cells in H1;
      destruct H1 as (raw & -> & F)
  end.
  exists rows, raw.
  split; [ exact Hq | split; [ exact F | ] ].
  match goal with H : truediv_lit _ _ = inr _ |- _ =>
    unfold truediv_lit in H; simpl in H; injection H as <- end.
  pose proof (Forall2_length F) as L.
  match goal with H : with_columns _ _ = inr _ |- _ =>
    rewrite FrameFacts.with_columns_two in H
      by (rewrite height_of_objects; simpl; rewrite !length_map; auto);
    injection H as <- end.
  rewrite !map_map. reflexivity.
Qed.

End BalanceFacts.

(** C3 (as amended).  For every non-empty list of addresses none of which
    holds a quote, a backslash or a line break, the filter the fetcher
    writes is read back as membership in exactly that list, two such
    lists never give the same filter, and the table returned holds only
    objects whose owner equals one of the addresses, character for
    character -- all of them when they are no more than [limit]. *)
Theorem plain_addresses_filter_exactly (addresses : list string) :
  addresses <> [] -> forallb Remote.plain addresses = true ->
  Remote.read_where (SuiDataFetcher.where_clause (Some addresses))
  = Some (Remote.OwnerIn addresses) /\
  (forall others, others <> [] -> forallb Remote.plain others = true ->
     SuiDataFetcher.where_clause (Some others)
     = SuiDataFetcher.where_clause (Some addresses) ->
     others = addresses) /\
  (forall ds limit tr df,
     SuiDataFetcher.get_wallet_balances ds (Some addresses) limit = (tr, inr df) ->
     exists rows,
       Polars.col df "owner"
       = inr (Polars.Utf8 (map (fun o => Some (Remote.owner o)) rows)) /\
       (forall o, In o rows ->
          In o (Remote.objects ds) /\ In (Remote.owner o) addresses) /\
       (let matching :=
          filter (fun o => existsb (String.eqb (Remote.owner o)) addresses)
                 (Remote.objects ds) in
        Z.of_nat (List.length matching) <= limit -> Permutation rows matching)).
Proof.
  intros N P.
  pose proof (BalanceFacts.read_where_owner_in addresses N P) as R.
  split; [ exact R | split ].
  - intros others N' P' E.
    pose proof (BalanceFacts.read_where_owner_in others N' P') as R'.
    rewrite E, R in R'. congruence.
  - intros ds limit tr df H.
    apply BalanceFacts.get_wallet_balances_inr in H.
    destruct H as (rows & raw & Hq & _ & ->).
    exists rows. split; [ reflexivity | ].
    apply BalanceFacts.wallet_balances_inr in Hq.
    destruct Hq as (w & keyed & Hw & Hm & _ & Hl & ->).
    rewrite R in Hw. injection Hw as <-.
    split.
    + intros o Ho. apply in_map_iff in Ho. destruct Ho as (p & <- & Hp).
      apply OrderFacts.firstn_In in Hp.
      apply (proj1 (OrderFacts.order_by_desc_In fst _ _)) in Hp.
      assert (Hs : In (snd p) (map snd keyed)) by now apply in_map.
      rewrite Hm in Hs. apply filter_In in Hs. destruct Hs as [Hs1 Hs2].
      split; [ exact Hs1 | now apply BalanceFacts.satisfies_owner_in ].
    + cbv zeta. change (fun o => existsb (String.eqb (Remote.owner o)) addresses)
        with (Remote.satisfies (Remote.OwnerIn addresses)).
      rewrite <- Hm, length_map. intros Hn.
      rewrite firstn_all2.
      * apply Permutation_map, OrderFacts.order_by_desc_perm.
      * rewrite (Permutation_length (OrderFacts.order_by_desc_perm fst keyed)). lia.
Qed.

Lemma plain_addresses_filter_exactly_witness :
  Remote.read_where (SuiDataFetcher.where_clause (Some ["0xabc"; "a"]%string))
  = Some (Remote.OwnerIn ["0xabc"; "a"]%string) /\
  (forall others, others <> [] -> forallb Remote.plain others = true ->
     SuiDataFetcher.where_clause (Some others)
     = SuiDataFetcher.where_clause (Some ["0xabc"; "a"]%string) ->
     others = ["0xabc"; "a"]%string) /\
  (forall ds limit tr df,
     SuiDataFetcher.get_wallet_balances ds (Some ["0xabc"; "a"]%string) limit
     = (tr, inr df) ->
     exists rows,
       Polars.col df "owner"
       = inr (Polars.Utf8 (map (fun o => Some (Remote.owner o)) rows)) /\
       (forall o, In o rows ->
          In o (Remote.objects ds) /\ In (Remote.owner o) ["0xabc"; "a"]%string) /\
       (let matching :=
          filter (fun o => existsb (String.eqb (Remote.owner o)) ["0xabc"; "a"]%string)
                 (Remote.objects ds) in
        Z.of_nat (List.length matching) <= limit -> Permutation rows matching)).
Proof.
  apply (plain_addresses_filter_exactly ["0xabc"; "a"]%string).
  - discriminate.
  - vm_compute. reflexivity.
Defined.

(** C3 as stated fails: an address is written into the query as it is,
    and a quote inside it ends the literal.  The one address [a', 'b]
    gives the very filter of the two addresses [a] and [b], and the
    table returned holds the objects of owners [b] and [a], neither of
    which is the address that was asked for. *)
Lemma quote_in_address_rewrites_filter :
  SuiDataFetcher.where_clause (Some ["a', 'b"]%string)
  = SuiDataFetcher.where_clause (Some ["a"; "b"]%string) /\
  Remote.read_where (SuiDataFetcher.where_clause (Some ["a', 'b"]%string))
  = Some (Remote.OwnerIn ["a"; "b"]%string) /\
  Polars.col
    (Sample.returned
       (SuiDataFetcher.get_wallet_balances Sample.dataset (Some ["a', 'b"]%string) 50))
    "owner"
  = inr (Polars.Utf8 [Some "b"; Some "a"]%string) /\
  ~ In "b"%string ["a', 'b"]%string /\ ~ In "a"%string ["a', 'b"]%string.
Proof.
  split; [ vm_compute; reflexivity | ].
  split; [ vm_compute; reflexivity | ].
  split; [ vm_compute; reflexivity | ].
  split; intros [H | []]; discriminate.
Qed.

(** C4.  In every table [get_wallet_balances] returns, [balance_raw] is
    the signed 64-bit integer read from the [balance] string of the same
    row, and [balance_sui] is the binary64 quotient of that integer,
    converted to binary64, by 1e9. *)
Theorem balance_columns_from_balance
  (ds : Remote.Dataset) (addresses : option (list string)) (limit : Z)
  (tr : Trace) (df : Polars.DataFrame) :
  SuiDataFetcher.get_wallet_balances ds addresses limit = (tr, inr df) ->
  exists bal raw,
    Polars.col df "balance" = inr (Polars.Utf8 (map Some bal)) /\
    Polars.col df "balance_raw" = inr (Polars.Int64 (map Some raw)) /\
    Polars.col df "balance_sui"
    = inr (Polars.Float64
             (map (fun z => Some (Float64.div (Float64.of_int z)
                                    (Float64.of_int 1000000000))) raw)) /\
    Polars.height df = List.length raw /\
    Forall2 (fun s z => parse_int64 s = Some z /\ INT64_MIN <= z <= INT64_MAX)
            bal raw.
Proof.
  intros H.
  apply BalanceFacts.get_wallet_balances_inr in H.
  destruct H as (rows & raw & _ & F & ->).
  exists (map Remote.balance rows), raw.
  split; [ cbn; now rewrite FrameFacts.map_Some_cells | ].
  split; [ reflexivity | ].
  split; [ reflexivity | ].
  split.
  - change (List.length (Arrow.cells Remote.owner rows) = List.length raw).
    rewrite FrameFacts.length_cells. apply (Forall2_length F).
  - clear - F. induction F; simpl; constructor; auto.
    split; [ assumption | eapply BalanceFacts.parse_int64_range; eassumption ].
Qed.

Lemma balance_columns_from_balance_witness :
  exists bal raw,
    Polars.col Sample.balances "balance" = inr (Polars.Utf8 (map Some bal)) /\
    Polars.col Sample.balances "balance_raw" = inr (Polars.Int64 (map Some raw)) /\
    Polars.col Sample.balances "balance_sui"
    = inr (Polars.Float64
             (map (fun z => Some (Float64.div (Float64.of_int z)
                                    (Float64.of_int 1000000000))) raw)) /\
    Polars.height Sample.balances = List.length raw /\
    Forall2 (fun s z => parse_int64 s = Some z /\ INT64_MIN <= z <= INT64_MAX)
            bal raw.
Proof.
  apply (balance_columns_from_balance
           Sample.dataset (Some ["0xabc"; "a"]%string) 50
           [FetchingBalancesFor 2; FetchedBalances 2]).
  vm_compute. reflexivity.
Defined.

(** The scenario of the specification: a raw balance of 5000000000 is
    5.0, and a raw balance of 7 is not cut down to zero. *)
Example five_sui :
  Polars.col Sample.balances "balance_sui"
  = inr (Polars.Float64
           [Some (Float64.of_int 5);
            Some (Float64.div (Float64.of_int 7) (Float64.of_int 1000000000))])
  /\ Float64.div (Float64.of_int 7) (Float64.of_int 1000000000)
     <> Float64.of_int (7 / 1000000000).
Proof. split; [ vm_compute; reflexivity | vm_compute; discriminate ]. Qed.

(** C10.  The empty list of addresses is the absence of a list: the same
    prints, the same query for the native coin, the same table; on the
    sample dataset that table has the three wallets holding the coin,
    highest balance first. *)
Theorem empty_addresses_as_none (ds : Remote.Dataset) (limit : Z) :
  SuiDataFetcher.get_wallet_balances ds (Some []) limit
  = SuiDataFetcher.get_wallet_balances ds None limit /\
  SuiDataFetcher.where_clause (Some []) = "WHERE coin_type = '0x2::sui::SUI'"%string /\
  Remote.read_where (SuiDataFetcher.where_clause (Some []))
  = Some (Remote.CoinTypeIs "0x2::sui::SUI") /\
  (forall rows,
     Remote.wallet_balances ds (SuiDataFetcher.where_clause (Some [])) limit
     = inr rows ->
     Z.of_nat (List.length rows) <= limit /\
     forall o, In o rows ->
       In o (Remote.objects ds) /\ Remote.coin_type o = "0x2::sui::SUI"%string) /\
  Polars.col
    (Sample.returned (SuiDataFetcher.get_wallet_balances Sample.dataset (Some []) 50))
    "balance_raw"
  = inr (Polars.Int64 [Some 5000000000; Some 12; Some 7]).
Proof.
  split; [ reflexivity | ].
  split; [ reflexivity | ].
  split; [ reflexivity | ].
  split; [ | vm_compute; reflexivity ].
  intros rows Hq.
  apply BalanceFacts.wallet_balances_inr in Hq.
  destruct Hq as (w & keyed & Hw & Hm & _ & Hl & ->).
  change (Remote.read_where (SuiDataFetcher.where_clause (Some [])))
    with (Some (Remote.CoinTypeIs "0x2::sui::SUI")) in Hw.
  injection Hw as <-.
  split.
  - rewrite length_map.
    pose proof (firstn_le_length (Z.to_nat limit) (Remote.order_by_desc fst keyed)).
    lia.
  - intros o Ho. apply in_map_iff in Ho. destruct Ho as (p & <- & Hp).
    apply OrderFacts.firstn_In in Hp.
    apply (proj1 (OrderFacts.order_by_desc_In fst _ _)) in Hp.
    assert (Hs : In (snd p) (map snd keyed)) by now apply in_map.
    rewrite Hm in Hs. apply filter_In in Hs. destruct Hs as [Hs1 Hs2].
    split; [ exact Hs1 | ]. simpl in Hs2. now apply String.eqb_eq in Hs2.
Qed.

(** ** The daily summary *)

Module SummaryFacts.

Import Polars SuiDataFetcher.

Local Open Scope string_scope.

(** *** The success rate on any table *)

Lemma lookup_set_column df name s : lookup (set_column df name s) name = Some s.
Proof.
  induction df as [ | [n s0] df IH]; simpl.
  - now rewrite String.eqb_refl.
  - destruct (String.eqb n name) eqn:E; simpl; now rewrite E.
Qed.

Lemma add_success_rate_int64 df s c :
  col df "successful_txns" = inr (Int64 s) ->
  col df "transaction_count" = inr (Int64 c) ->
  List.length s = height df -> List.length c = height df ->
  add_success_rate df
  = inr (set_column df "success_rate_pct"
           (Float64
              (map (option_map (fun v => Float64.mul v (Float64.of_int 100)))
                 (zip_with (lift2 Float64.div)
                    (map (option_map Float64.of_int) s)
                    (map (option_map Float64.of_int) c))))).
Proof.
  intros Hs Hc Ls Lc. unfold add_success_rate.
  rewrite Hs, Hc. unfold truediv. cbn [exc_bind to_float64].
  rewrite !length_map, Ls, Lc, Nat.eqb_refl. cbn [exc_bind mul_lit].
  apply FrameFacts.with_columns_one. cbn [series_len].
  rewrite length_map.
  rewrite <- Ls. rewrite <- Ls in Lc. clear - Lc.
  revert c Lc. induction s as [ | a s IH]; intros [ | b c]; simpl; try discriminate.
  - reflexivity.
  - intros E. injection E as E. now rewrite (IH _ E).
Qed.

Lemma nth_error_zip_div (s c : list (option Z)) i x y :
  nth_error s i = Some (Some x) -> nth_error c i = Some (Some y) ->
  nth_error
    (map (option_map (fun v => Float64.mul v (Float64.of_int 100)))
       (zip_with (lift2 Float64.div)
          (map (option_map Float64.of_int) s)
          (map (option_map Float64.of_int) c))) i
  = Some (Some (Float64.mul (Float64.div (Float64.of_int x) (Float64.of_int y))
                  (Float64.of_int 100))).
Proof.
  revert c i. induction s as [ | a s IH]; intros [ | b c] [ | i]; simpl;
    try discriminate.
  - intros H1 H2. injection H1 as ->. injection H2 as ->. reflexivity.
  - apply IH.
Qed.

(** Whatever is divided by zero, the rate is not a number one can use. *)
Lemma rate_over_zero x :
  Float64.is_finite
    (Float64.mul (Float64.div x (Float64.of_int 0)) (Float64.of_int 100)) = false.
Proof. destruct x as [ [ | ] | [ | ] | | [ | ] m e]; reflexivity. Qed.

(** *** The rows of the summary query *)

Lemma map_exc_Forall2 {A B} (f : A -> Exc B) l out :
  Remote.map_exc f l = inr out -> Forall2 (fun a b => f a = inr b) l out.
Proof.
  revert out. induction l as [ | a l IH]; simpl; intros out H.
  - injection H as <-. constructor.
  - run_back.
    match goal with H : inr _ = inr out |- _ => injection H as <- end.
    constructor; auto.
Qed.

Lemma flags_add_up g :
  Remote.sum (map (fun t => match Remote.success t with
                            | Some true => 1 | _ => 0 end) g)
  + Remote.sum (map (fun t => match Remote.success t with
                              | Some false => 1 | _ => 0 end) g)
  + Remote.undecided g
  = Remote.count g.
Proof.
  unfold Remote.undecided, Remote.count.
  induction g as [ | t g IH]; [ reflexivity | ].
  cbn [map Remote.sum fold_right List.length].
  fold (Remote.sum (map (fun t => match Remote.success t with
                                  | Some true => 1 | _ => 0 end) g)).
  fold (Remote.sum (map (fun t => match Remote.success t with
                                  | Some false => 1 | _ => 0 end) g)).
  fold (Remote.sum (map (fun t => match Remote.success t with
                                  | None => 1 | Some _ => 0 end) g)).
  rewrite Nat2Z.inj_succ.
  destruct (Remote.success t) as [ [ | ] | ]; lia.
Qed.

Lemma undecided_nonneg g : 0 <= Remote.undecided g.
Proof.
  unfold Remote.undecided.
  induction g as [ | t g IH]; simpl; [ lia | ].
  destruct (Remote.success t); lia.
Qed.

Lemma aggregate_inr d g r :
  Remote.aggregate d g = inr r ->
  Remote.date r = d /\
  Remote.transaction_count r = Remote.count g /\
  Remote.successful_txns r + Remote.failed_txns r + Remote.undecided g
  = Remote.count g.
Proof.
  unfold Remote.aggregate. intros H. run_back.
  injection H as <-. simpl.
  repeat split. apply flags_add_up.
Qed.

(** Every row of the summary is the aggregate of the group of its date,
    and no group is empty. *)
Lemma transaction_summary_rows ds cutoff rows :
  Remote.transaction_summary ds cutoff = inr rows ->
  Forall (fun r =>
            let g := Remote.group (Remote.window ds cutoff) (Remote.date r) in
            1 <= Remote.transaction_count r /\
            Remote.transaction_count r = Remote.count g /\
            Remote.successful_txns r + Remote.failed_txns r + Remote.undecided g
            = Remote.count g) rows.
Proof.
  unfold Remote.transaction_summary. intros H.
  apply map_exc_Forall2 in H.
  set (win := Remote.window ds cutoff) in *.
  assert (D : Forall (fun d => In d (map Remote.date_of win))
                (Remote.order_by_desc (fun d => d)
                   (nodup Z.eq_dec (map Remote.date_of win)))).
  { apply Forall_forall. intros d Hd.
    apply (proj1 (OrderFacts.order_by_desc_In (fun d => d) _ _)) in Hd.
    now apply nodup_In in Hd. }
  induction H as [ | d r dates rows Hr H IH]; [ constructor | ].
  inversion D as [ | ? ? Hd D']; subst.
  constructor; [ | now apply IH ].
  apply aggregate_inr in Hr. destruct Hr as (-> & Hc & Hs).
  cbv zeta. repeat split; auto.
  rewrite Hc. unfold Remote.count.
  apply in_map_iff in Hd. destruct Hd as (t & Ht & Hin).
  assert (G : In t (Remote.group win (Remote.date_of t))).
  { apply filter_In. split; [ exact Hin | apply Z.eqb_refl ]. }
  rewrite Ht in G.
  destruct (Remote.group win d); [ elim (in_nil G) | simpl; lia ].
Qed.

Lemma height_of_summaries rows :
  height (Arrow.of_summaries rows) = List.length rows.
Proof. apply FrameFacts.length_cells. Qed.

(** What a call that returns has done: one query, and one column added
    at the end of its result. *)
Lemma get_transaction_summary_inr zone now ds days tr df :
  get_transaction_summary zone now ds days = (tr, inr df) ->
  exists cutoff rows,
    Clock.cutoff_timestamp zone now days = inr cutoff /\
    Remote.transaction_summary ds cutoff = inr rows /\
    df = (Arrow.of_summaries rows
          ++ [("success_rate_pct",
               Float64
                 (map (option_map (fun v => Float64.mul v (Float64.of_int 100)))
                    (zip_with (lift2 Float64.div)
                       (map (option_map Float64.of_int)
                            (Arrow.cells Remote.successful_txns rows))
                       (map (option_map Float64.of_int)
                            (Arrow.cells Remote.transaction_count rows)))))])%list.
Proof.
  unfold get_transaction_summary. intros H.
  run_back. subst.
  match goal with H : Clock.cutoff_timestamp _ _ _ = inr ?c |- _ => exists c end.
  match goal with H : Remote.transaction_summary _ _ = inr ?r |- _ =>
    exists r; rename r into rows end.
  split; [ assumption | split; [ assumption | ] ].
  match goal with H : add_success_rate _ = inr _ |- _ =>
    rewrite (add_success_rate_int64 (Arrow.of_summaries rows)
               (Arrow.cells Remote.successful_txns rows)
               (Arrow.cells Remote.transaction_count rows)) in H
      by (try reflexivity; rewrite height_of_summaries; apply FrameFacts.length_cells);
    injection H as <- end.
  reflexivity.
Qed.

End SummaryFacts.

(** C5.  In every table [get_transaction_summary] returns, and for every
    row of it with [transaction_count > 0], [success_rate_pct] is the
    binary64 value of [successful_txns / transaction_count * 100], the
    two counts converted to binary64, divided, and the quotient
    multiplied by 100. *)
Theorem success_rate_is_percentage
  (zone : Clock.Zone) (now : Clock.datetime) (ds : Remote.Dataset) (days : Days)
  (tr : Trace) (df : Polars.DataFrame) :
  SuiDataFetcher.get_transaction_summary zone now ds days = (tr, inr df) ->
  exists succ cnt rate,
    Polars.col df "successful_txns" = inr (Polars.Int64 (map Some succ)) /\
    Polars.col df "transaction_count" = inr (Polars.Int64 (map Some cnt)) /\
    Polars.col df "success_rate_pct" = inr (Polars.Float64 rate) /\
    forall i s c,
      nth_error succ i = Some s -> nth_error cnt i = Some c -> 0 < c ->
      nth_error rate i
      = Some (Some (Float64.mul (Float64.div (Float64.of_int s) (Float64.of_int c))
                      (Float64.of_int 100))).
Proof.
  intros H.
  apply SummaryFacts.get_transaction_summary_inr in H.
  destruct H as (cutoff & rows & _ & _ & ->).
  exists (map Remote.successful_txns rows), (map Remote.transaction_count rows).
  eexists.
  split; [ cbn; now rewrite FrameFacts.map_Some_cells | ].
  split; [ cbn; now rewrite FrameFacts.map_Some_cells | ].
  split; [ reflexivity | ].
  intros i s c Hs Hc _.
  apply SummaryFacts.nth_error_zip_div.
  - now rewrite FrameFacts.map_Some_cells, nth_error_map, Hs.
  - now rewrite FrameFacts.map_Some_cells, nth_error_map, Hc.
Qed.

Lemma success_rate_is_percentage_witness :
  exists succ cnt rate,
    Polars.col Sample.summary "successful_txns" = inr (Polars.Int64 (map Some succ)) /\
    Polars.col Sample.summary "transaction_count" = inr (Polars.Int64 (map Some cnt)) /\
    Polars.col Sample.summary "success_rate_pct" = inr (Polars.Float64 rate) /\
    forall i s c,
      nth_error succ i = Some s -> nth_error cnt i = Some c -> 0 < c ->
      nth_error rate i
      = Some (Some (Float64.mul (Float64.div (Float64.of_int s) (Float64.of_int c))
                      (Float64.of_int 100))).
Proof.
  apply (success_rate_is_percentage Clock.utc Sample.now Sample.dataset (DInt 7)
           [FetchingSummary (DInt 7); GeneratedSummary 2]).
  vm_compute. reflexivity.
Defined.

(** C6.  The division of the success rate has no guard: on any summary
    table, a row whose [transaction_count] is 0 gets a rate that is NaN
    or an infinity, and the step returns its table all the same.  A
    window without a transaction gives a table of no row. *)
Theorem zero_count_rate_is_not_finite :
  (forall df s c,
     Polars.col df "successful_txns" = inr (Polars.Int64 s) ->
     Polars.col df "transaction_count" = inr (Polars.Int64 c) ->
     List.length s = Polars.height df -> List.length c = Polars.height df ->
     exists df' rate,
       SuiDataFetcher.add_success_rate df = inr df' /\
       Polars.col df' "success_rate_pct" = inr (Polars.Float64 rate) /\
       forall i x,
         nth_error c i = Some (Some 0) -> nth_error s i = Some (Some x) ->
         exists f, nth_error rate i = Some (Some f) /\
                   Float64.is_finite f = false) /\
  (forall zone now ds days cutoff,
     Clock.cutoff_timestamp zone now days = inr cutoff ->
     Remote.window ds cutoff = [] ->
     exists df,
       SuiDataFetcher.get_transaction_summary zone now ds days
       = ([FetchingSummary days; GeneratedSummary 0], inr df) /\
       Polars.height df = 0%nat /\
       Polars.col df "success_rate_pct" = inr (Polars.Float64 [])).
Proof.
  split.
  - intros df s c Hs Hc Ls Lc.
    eexists. eexists.
    split; [ apply (SummaryFacts.add_success_rate_int64 df s c); assumption | ].
    split.
    + unfold Polars.col. now rewrite SummaryFacts.lookup_set_column.
    + intros i x Hi Hx. eexists.
      split; [ apply (SummaryFacts.nth_error_zip_div s c i x 0); assumption | ].
      apply SummaryFacts.rate_over_zero.
  - intros zone now ds days cutoff Hc Hw.
    eexists. split; [ | split ].
    + unfold SuiDataFetcher.get_transaction_summary.
      rewrite Hc. cbn [lift io_bind print].
      unfold Remote.transaction_summary. rewrite Hw. reflexivity.
    + reflexivity.
    + reflexivity.
Qed.

Lemma zero_count_rate_is_not_finite_witness :
  exists df' rate,
    SuiDataFetcher.add_success_rate Sample.degenerate = inr df' /\
    Polars.col df' "success_rate_pct" = inr (Polars.Float64 rate) /\
    forall i x,
      nth_error [Some 0; Some 4] i = Some (Some 0) ->
      nth_error [Some 0; Some 3] i = Some (Some x) ->
      exists f, nth_error rate i = Some (Some f) /\
                Float64.is_finite f = false.
Proof.
  apply (proj1 zero_count_rate_is_not_finite Sample.degenerate
           [Some 0; Some 3] [Some 0; Some 4]); reflexivity.
Defined.

(** On the sample table the rate of the empty day is NaN, that of the
    other day 75. *)
Example rate_of_empty_day :
  SuiDataFetcher.add_success_rate Sample.degenerate
  = inr (Sample.degenerate
         ++ [("success_rate_pct"%string,
              Polars.Float64 [Some S754_nan; Some (Float64.of_int 75)])])%list.
Proof. vm_compute. reflexivity. Qed.

(** C8.  In every table [get_transaction_summary] returns, each row has
    [successful_txns + failed_txns <= transaction_count], and what is
    missing from the sum is the number of transactions of that date, in
    the window, whose [success] is neither true nor false. *)
Theorem successes_and_failures_within_count
  (zone : Clock.Zone) (now : Clock.datetime) (ds : Remote.Dataset) (days : Days)
  (tr : Trace) (df : Polars.DataFrame) :
  SuiDataFetcher.get_transaction_summary zone now ds days = (tr, inr df) ->
  exists cutoff dates succ failed cnt,
    Clock.cutoff_timestamp zone now days = inr cutoff /\
    Polars.col df "date" = inr (Polars.Date (map Some dates)) /\
    Polars.col df "successful_txns" = inr (Polars.Int64 (map Some succ)) /\
    Polars.col df "failed_txns" = inr (Polars.Int64 (map Some failed)) /\
    Polars.col df "transaction_count" = inr (Polars.Int64 (map Some cnt)) /\
    forall i d s f c,
      nth_error dates i = Some d -> nth_error succ i = Some s ->
      nth_error failed i = Some f -> nth_error cnt i = Some c ->
      s + f <= c /\
      c - (s + f) = Remote.undecided (Remote.group (Remote.window ds cutoff) d).
Proof.
  intros H.
  apply SummaryFacts.get_transaction_summary_inr in H.
  destruct H as (cutoff & rows & Hc & Hq & ->).
  exists cutoff, (map Remote.date rows), (map Remote.successful_txns rows),
    (map Remote.failed_txns rows), (map Remote.transaction_count rows).
  split; [ exact Hc | ].
  do 4 (split; [ cbn; now rewrite FrameFacts.map_Some_cells | ]).
  intros i d s f c Hd Hs Hf Hn.
  apply SummaryFacts.transaction_summary_rows in Hq.
  rewrite nth_error_map in Hd, Hs, Hf, Hn.
  destruct (nth_error rows i) as [r | ] eqn:E; [ | discriminate ].
  simpl in Hd, Hs, Hf, Hn.
  injection Hd as <-. injection Hs as <-. injection Hf as <-. injection Hn as <-.
  rewrite Forall_forall in Hq.
  destruct (Hq r (nth_error_In _ _ E)) as (_ & Hcount & Hsum).
  pose proof (SummaryFacts.undecided_nonneg
                (Remote.group (Remote.window ds cutoff) (Remote.date r))).
  lia.
Qed.

Lemma successes_and_failures_within_count_witness :
  exists cutoff dates succ failed cnt,
    Clock.cutoff_timestamp Clock.utc Sample.now (DInt 7) = inr cutoff /\
    Polars.col Sample.summary "date" = inr (Polars.Date (map Some dates)) /\
    Polars.col Sample.summary "successful_txns" = inr (Polars.Int64 (map Some succ)) /\
    Polars.col Sample.summary "failed_txns" = inr (Polars.Int64 (map Some failed)) /\
    Polars.col Sample.summary "transaction_count" = inr (Polars.Int64 (map Some cnt)) /\
    forall i d s f c,
      nth_error dates i = Some d -> nth_error succ i = Some s ->
      nth_error failed i = Some f -> nth_error cnt i = Some c ->
      s + f <= c /\
      c - (s + f)
      = Remote.undecided (Remote.group (Remote.window Sample.dataset cutoff) d).
Proof.
  apply (successes_and_failures_within_count Clock.utc Sample.now Sample.dataset (DInt 7)
           [FetchingSummary (DInt 7); GeneratedSummary 2]).
  vm_compute. reflexivity.
Defined.

(** On the sample dataset the latest day has three transactions, two
    successful and none failed: the third has no flag. *)
Example undecided_makes_it_strict :
  Polars.col Sample.summary "transaction_count" = inr (Polars.Int64 [Some 3; Some 1]) /\
  Polars.col Sample.summary "successful_txns" = inr (Polars.Int64 [Some 2; Some 0]) /\
  Polars.col Sample.summary "failed_txns" = inr (Polars.Int64 [Some 0; Some 1]).
Proof. repeat split. Qed.

(** * Further properties of the fetcher *)

(** ** The rows a LIMIT keeps *)

Module TopFacts.

Import Remote.

(** In a list in descending order of a key, a row is among the first [n]
    or its key is no higher than the key of any of them. *)
Lemma firstn_dominates {A} (key : A -> Z) l n :
  StronglySorted (desc key) l ->
  forall x, In x l ->
    In x (firstn n l) \/ (forall y, In y (firstn n l) -> key x <= key y).
Proof.
  intros S. revert n. induction S as [ | a l S IH F]; intros n x Hx.
  - destruct Hx.
  - destruct n as [ | n]; [ right; intros y [] | ].
    destruct Hx as [<- | Hx]; [ left; now left | ].
    destruct (IH n x Hx) as [Hin | Hle]; [ left; now right | ].
    right. intros y [<- | Hy]; [ | now apply Hle ].
    rewrite Forall_forall in F. exact (F x Hx).
Qed.

(** The keys a query sorted by, read off the rows it returned. *)
Lemma keys_of_rows (L : list (Z * Object)) raw :
  Forall (fun p => parse_int64 (balance (snd p)) = Some (fst p)) L ->
  Forall2 (fun o z => parse_int64 (balance o) = Some z) (map snd L) raw ->
  raw = map fst L.
Proof.
  revert raw. induction L as [ | p L IH]; simpl; intros raw HL H2.
  - now inversion H2.
  - inversion H2 as [ | o z os zs Hz Hrest]; subst.
    inversion HL as [ | ? ? Hp HL']; subst.
    f_equal; [ congruence | now apply IH ].
Qed.

End TopFacts.

(** X1.  The rows of [get_recent_transactions] are the newest of
    the window: a transaction of the window is in the table, or it is no
    newer than any row of the table; when the window has no more than
    [limit] transactions, the table holds them all. *)
Theorem recent_transactions_are_the_newest
  (zone : Clock.Zone) (now : Clock.datetime) (ds : Remote.Dataset) (days : Days) (limit : Z)
  (tr : Trace) (df : Polars.DataFrame) :
  SuiDataFetcher.get_recent_transactions zone now ds days limit = (tr, inr df) ->
  exists cutoff rows,
    Clock.cutoff_timestamp zone now days = inr cutoff /\
    df = (Arrow.of_transactions rows
          ++ [("timestamp"%string,
               Polars.Datetime (map (fun r => Some (Remote.timestamp_ms r)) rows))])%list /\
    (forall t, In t (Remote.transactions ds) -> cutoff <= Remote.timestamp_ms t ->
       In t rows \/
       forall r, In r rows -> Remote.timestamp_ms t <= Remote.timestamp_ms r) /\
    (Z.of_nat (List.length (Remote.window ds cutoff)) <= limit ->
     Permutation rows (Remote.window ds cutoff)).
Proof.
  intros H.
  apply RecentFacts.get_recent_transactions_inr in H.
  destruct H as (cutoff & rows & Hc & Hq & -> & _).
  exists cutoff, rows.
  split; [ exact Hc | split; [ reflexivity | ] ].
  unfold Remote.recent_transactions in Hq.
  apply OrderFacts.limit_rows_inr in Hq. destruct Hq as (Hl & -> & _).
  split.
  - intros t Ht Hts.
    apply TopFacts.firstn_dominates.
    + apply OrderFacts.order_by_desc_sorted.
    + apply OrderFacts.order_by_desc_In. apply filter_In.
      split; [ exact Ht | now apply Z.leb_le ].
  - intros Hn. rewrite firstn_all2.
    + apply OrderFacts.order_by_desc_perm.
    + rewrite (Permutation_length
                 (OrderFacts.order_by_desc_perm Remote.timestamp_ms _)). lia.
Qed.

Lemma recent_transactions_are_the_newest_witness :
  exists cutoff rows,
    Clock.cutoff_timestamp Clock.utc Sample.now (DInt 7) = inr cutoff /\
    Sample.recent
    = (Arrow.of_transactions rows
       ++ [("timestamp"%string,
            Polars.Datetime (map (fun r => Some (Remote.timestamp_ms r)) rows))])%list /\
    (forall t, In t (Remote.transactions Sample.dataset) ->
       cutoff <= Remote.timestamp_ms t ->
       In t rows \/
       forall r, In r rows -> Remote.timestamp_ms t <= Remote.timestamp_ms r) /\
    (Z.of_nat (List.length (Remote.window Sample.dataset cutoff)) <= 3 ->
     Permutation rows (Remote.window Sample.dataset cutoff)).
Proof.
  apply (recent_transactions_are_the_newest
           Clock.utc Sample.now Sample.dataset (DInt 7) 3
           [FetchingRecent (DInt 7) 3; FetchedTransactions 3]).
  vm_compute. reflexivity.
Defined.

(** X2.  The table of [get_wallet_balances] has at most [limit]
    rows, highest [balance_raw] first, and they are the highest: an
    object that passes the filter has its balance in the table, or a
    balance no higher than any in the table. *)
Theorem wallet_balances_highest_first
  (ds : Remote.Dataset) (addresses : option (list string)) (limit : Z)
  (tr : Trace) (df : Polars.DataFrame) :
  SuiDataFetcher.get_wallet_balances ds addresses limit = (tr, inr df) ->
  exists raw w,
    Polars.col df "balance_raw" = inr (Polars.Int64 (map Some raw)) /\
    Polars.height df = List.length raw /\
    Z.of_nat (Polars.height df) <= limit /\
    StronglySorted (fun a b => b <= a) raw /\
    Remote.read_where (SuiDataFetcher.where_clause addresses) = Some w /\
    forall o z,
      In o (Remote.objects ds) -> Remote.satisfies w o = true ->
      parse_int64 (Remote.balance o) = Some z ->
      In z raw \/ Forall (fun r => z <= r) raw.
Proof.
  intros H.
  apply BalanceFacts.get_wallet_balances_inr in H.
  destruct H as (rows & raw & Hq & F & ->).
  apply BalanceFacts.wallet_balances_inr in Hq.
  destruct Hq as (w & keyed & Hw & Hm & Hp & Hl & ->).
  set (L := firstn (Z.to_nat limit) (Remote.order_by_desc fst keyed)) in *.
  assert (HL : Forall (fun p => parse_int64 (Remote.balance (snd p)) = Some (fst p)) L).
  { apply Forall_forall. intros p Hin. unfold L in Hin.
    apply OrderFacts.firstn_In in Hin.
    apply (proj1 (OrderFacts.order_by_desc_In fst _ _)) in Hin.
    rewrite Forall_forall in Hp. now apply Hp. }
  pose proof (TopFacts.keys_of_rows L raw HL F) as ->.
  exists (map fst L), w.
  split; [ reflexivity | ].
  assert (Hh : Polars.height
                 (Arrow.of_objects (map snd L)
                  ++ [("balance_raw"%string, Polars.Int64 (map Some (map fst L)));
                      ("balance_sui"%string,
                       Polars.Float64
                         (map (fun z => Some (Float64.div (Float64.of_int z)
                                                (Float64.of_int 1000000000)))
                              (map fst L)))])
               = List.length (map fst L)).
  { change (List.length (Arrow.cells Remote.owner (map snd L))
            = List.length (map fst L)).
    now rewrite FrameFacts.length_cells, !length_map. }
  rewrite Hh.
  split; [ reflexivity | ].
  split.
  { rewrite length_map. unfold L.
    pose proof (firstn_le_length (Z.to_nat limit) (Remote.order_by_desc fst keyed)).
    lia. }
  split.
  { apply OrderFacts.sorted_keys. unfold L.
    apply OrderFacts.firstn_sorted, OrderFacts.order_by_desc_sorted. }
  split; [ exact Hw | ].
  intros o z Ho Hs Hz.
  assert (Hin : In o (map snd keyed)).
  { rewrite Hm. apply filter_In. auto. }
  apply in_map_iff in Hin. destruct Hin as (p & <- & Hp').
  rewrite Forall_forall in Hp. rewrite (Hp p Hp') in Hz. injection Hz as <-.
  destruct (TopFacts.firstn_dominates fst (Remote.order_by_desc fst keyed)
              (Z.to_nat limit) (OrderFacts.order_by_desc_sorted fst keyed) p)
    as [Hin | Hle].
  - now apply OrderFacts.order_by_desc_In.
  - left. now apply in_map.
  - right. apply Forall_map, Forall_forall. exact Hle.
Qed.

Lemma wallet_balances_highest_first_witness :
  exists raw w,
    Polars.col Sample.balances "balance_raw" = inr (Polars.Int64 (map Some raw)) /\
    Polars.height Sample.balances = List.length raw /\
    Z.of_nat (Polars.height Sample.balances) <= 50 /\
    StronglySorted (fun a b => b <= a) raw /\
    Remote.read_where (SuiDataFetcher.where_clause (Some ["0xabc"; "a"]%string))
    = Some w /\
    forall o z,
      In o (Remote.objects Sample.dataset) -> Remote.satisfies w o = true ->
      parse_int64 (Remote.balance o) = Some z ->
      In z raw \/ Forall (fun r => z <= r) raw.
Proof.
  apply (wallet_balances_highest_first
           Sample.dataset (Some ["0xabc"; "a"]%string) 50
           [FetchingBalancesFor 2; FetchedBalances 2]).
  vm_compute. reflexivity.
Defined.

(** ** The days of the summary *)

Module DayFacts.

Import Remote.

Lemma sum_map_add {A} (f g : A -> Z) l :
  sum (map (fun a => f a + g a) l) = sum (map f l) + sum (map g l).
Proof. induction l as [ | a l IH]; simpl; lia. Qed.

(** Among distinct days, exactly one is the day of a given row. *)
Lemma sum_indicator (x v : Z) D :
  NoDup D -> In x D ->
  sum (map (fun d => if x =? d then v else 0) D) = v.
Proof.
  induction 1 as [ | d D Hd ND IH]; intros Hin; [ destruct Hin | ].
  simpl. destruct (Z.eqb_spec x d) as [-> | Hne].
  - assert (Z0 : sum (map (fun d0 => if d =? d0 then v else 0) D) = 0).
    { clear - Hd. induction D as [ | e D IH]; simpl; [ reflexivity | ].
      destruct (Z.eqb_spec d e) as [-> | _].
      - exfalso. apply Hd. now left.
      - rewrite IH; [ lia | ]. intros H. apply Hd. now right. }
    lia.
  - destruct Hin as [-> | Hin]; [ congruence | ]. rewrite (IH Hin). lia.
Qed.

(** Grouping by day loses nothing and counts nothing twice: whatever is
    added up per group and then over the groups is what is added up over
    the window. *)
Lemma sum_over_groups (w : Transaction -> Z) win D :
  NoDup D -> (forall t, In t win -> In (date_of t) D) ->
  sum (map (fun d => sum (map w (group win d))) D) = sum (map w win).
Proof.
  intros ND. induction win as [ | t win IH]; intros Hall.
  - simpl. clear. induction D; simpl; lia.
  - assert (E : forall d,
               sum (map w (group (t :: win) d))
               = (if date_of t =? d then w t else 0) + sum (map w (group win d))).
    { intros d. unfold group. simpl. destruct (date_of t =? d); simpl; lia. }
    rewrite (map_ext _ _ E), sum_map_add.
    rewrite sum_indicator by (auto; apply Hall; now left).
    rewrite IH by (intros; apply Hall; now right).
    reflexivity.
Qed.

Lemma count_as_sum {A} (l : list A) : count l = sum (map (fun _ => 1) l).
Proof.
  unfold count. induction l as [ | a l IH]; [ reflexivity | ].
  cbn [map sum fold_right List.length]. fold (sum (map (fun _ : A => 1) l)).
  rewrite Nat2Z.inj_succ. lia.
Qed.

Lemma sum_flags_as_count {A} (p : A -> bool) (l : list A) :
  sum (map (fun a => if p a then 1 else 0) l) = count (filter p l).
Proof.
  unfold count. induction l as [ | a l IH]; [ reflexivity | ].
  cbn [map sum fold_right filter].
  fold (sum (map (fun a => if p a then 1 else 0) l)).
  destruct (p a); cbn [List.length]; rewrite ?Nat2Z.inj_succ; lia.
Qed.

Lemma desc_NoDup_strict l :
  StronglySorted (fun a b => b <= a) l -> NoDup l ->
  StronglySorted (fun a b => b < a) l.
Proof.
  induction 1 as [ | a l S IH F]; intros ND; constructor.
  - apply IH. now inversion ND.
  - inversion ND as [ | ? ? Hnotin _]; subst.
    apply Forall_forall. intros b Hb. rewrite Forall_forall in F.
    pose proof (F b Hb). assert (b <> a) by (intros ->; contradiction). lia.
Qed.

Lemma days_of_NoDup win : NoDup (days_of win).
Proof.
  unfold days_of.
  eapply Permutation_NoDup;
    [ symmetry; apply OrderFacts.order_by_desc_perm | apply NoDup_nodup ].
Qed.

Lemma days_of_In win d : In d (days_of win) <-> exists t, In t win /\ date_of t = d.
Proof.
  unfold days_of.
  rewrite OrderFacts.order_by_desc_In, nodup_In, in_map_iff.
  split; intros (t & H1 & H2); exists t; auto.
Qed.

Lemma days_of_sorted win : StronglySorted (fun a b => b < a) (days_of win).
Proof.
  apply desc_NoDup_strict; [ | apply days_of_NoDup ].
  unfold days_of.
  pose proof (OrderFacts.order_by_desc_sorted (fun d : Z => d)
                (nodup Z.eq_dec (map date_of win))) as S.
  exact S.
Qed.

(** The rows of the summary, one per day of the window. *)
Lemma transaction_summary_inr ds cutoff rows :
  transaction_summary ds cutoff = inr rows ->
  let win := window ds cutoff in
  map date rows = days_of win /\
  map transaction_count rows = map (fun d => count (group win d)) (days_of win) /\
  map successful_txns rows
  = map (fun d => sum (map (fun t => match success t with
                                     | Some true => 1 | _ => 0 end)
                           (group win d))) (days_of win) /\
  map failed_txns rows
  = map (fun d => sum (map (fun t => match success t with
                                     | Some false => 1 | _ => 0 end)
                           (group win d))) (days_of win) /\
  map unique_senders rows
  = map (fun d => count (nodup string_dec (map sender (group win d)))) (days_of win).
Proof.
  unfold transaction_summary. intros H. cbv zeta.
  fold (days_of (window ds cutoff)) in H.
  apply SummaryFacts.map_exc_Forall2 in H.
  induction H as [ | d r dates rows Hr H IH]; [ simpl; auto | ].
  destruct IH as (I1 & I2 & I3 & I4 & I5).
  unfold aggregate in Hr. apply exc_bind_inr in Hr.
  destruct Hr as (gas & _ & Hr). injection Hr as <-.
  simpl. rewrite I1, I2, I3, I4, I5. auto.
Qed.

End DayFacts.

(** X3.  The summary has one row per calendar day (UTC) on which the
    window has a transaction, and no other: the dates are strictly
    descending, and a date is in the table exactly when some transaction
    at or after the cutoff falls on it. *)
Theorem summary_has_one_row_per_day
  (zone : Clock.Zone) (now : Clock.datetime) (ds : Remote.Dataset) (days : Days)
  (tr : Trace) (df : Polars.DataFrame) :
  SuiDataFetcher.get_transaction_summary zone now ds days = (tr, inr df) ->
  exists cutoff dates,
    Clock.cutoff_timestamp zone now days = inr cutoff /\
    Polars.col df "date" = inr (Polars.Date (map Some dates)) /\
    Polars.height df = List.length dates /\
    StronglySorted (fun a b => b < a) dates /\
    forall d,
      In d dates <->
      exists t, In t (Remote.transactions ds) /\
                cutoff <= Remote.timestamp_ms t /\
                Remote.timestamp_ms t / 86400000 = d.
Proof.
  intros H.
  apply SummaryFacts.get_transaction_summary_inr in H.
  destruct H as (cutoff & rows & Hc & Hq & ->).
  apply DayFacts.transaction_summary_inr in Hq. cbv zeta in Hq.
  destruct Hq as (Hd & _).
  exists cutoff, (map Remote.date rows).
  split; [ exact Hc | ].
  split; [ cbn; now rewrite FrameFacts.map_Some_cells | ].
  split.
  { change (List.length (Arrow.cells Remote.date rows)
            = List.length (map Remote.date rows)).
    now rewrite FrameFacts.length_cells, length_map. }
  rewrite Hd.
  split; [ apply DayFacts.days_of_sorted | ].
  intros d. rewrite DayFacts.days_of_In.
  split.
  - intros (t & Ht & E). exists t.
    apply filter_In in Ht. destruct Ht as [Ht Hts]. apply Z.leb_le in Hts.
    auto.
  - intros (t & Ht & Hts & E). exists t.
    split; [ | exact E ].
    apply filter_In. split; [ exact Ht | now apply Z.leb_le ].
Qed.

Lemma summary_has_one_row_per_day_witness :
  exists cutoff dates,
    Clock.cutoff_timestamp Clock.utc Sample.now (DInt 7) = inr cutoff /\
    Polars.col Sample.summary "date" = inr (Polars.Date (map Some dates)) /\
    Polars.height Sample.summary = List.length dates /\
    StronglySorted (fun a b => b < a) dates /\
    forall d,
      In d dates <->
      exists t, In t (Remote.transactions Sample.dataset) /\
                cutoff <= Remote.timestamp_ms t /\
                Remote.timestamp_ms t / 86400000 = d.
Proof.
  apply (summary_has_one_row_per_day Clock.utc Sample.now Sample.dataset (DInt 7)
           [FetchingSummary (DInt 7); GeneratedSummary 2]).
  vm_compute. reflexivity.
Defined.

(** X4.  The columns of the summary add up to the window: the
    [transaction_count]s to the number of transactions at or after the
    cutoff, the [successful_txns] to the number of those whose flag is
    true, the [failed_txns] to the number of those whose flag is
    false. *)
Theorem summary_counts_add_up_to_the_window
  (zone : Clock.Zone) (now : Clock.datetime) (ds : Remote.Dataset) (days : Days)
  (tr : Trace) (df : Polars.DataFrame) :
  SuiDataFetcher.get_transaction_summary zone now ds days = (tr, inr df) ->
  exists cutoff cnt succ failed,
    Clock.cutoff_timestamp zone now days = inr cutoff /\
    Polars.col df "transaction_count" = inr (Polars.Int64 (map Some cnt)) /\
    Polars.col df "successful_txns" = inr (Polars.Int64 (map Some succ)) /\
    Polars.col df "failed_txns" = inr (Polars.Int64 (map Some failed)) /\
    let win := Remote.window ds cutoff in
    Remote.sum cnt = Z.of_nat (List.length win) /\
    Remote.sum succ
    = Z.of_nat (List.length
                  (filter (fun t => match Remote.success t with
                                    | Some true => true | _ => false end) win)) /\
    Remote.sum failed
    = Z.of_nat (List.length
                  (filter (fun t => match Remote.success t with
                                    | Some false => true | _ => false end) win)).
Proof.
  intros H.
  apply SummaryFacts.get_transaction_summary_inr in H.
  destruct H as (cutoff & rows & Hc & Hq & ->).
  apply DayFacts.transaction_summary_inr in Hq. cbv zeta in Hq.
  destruct Hq as (_ & Hn & Hs & Hf & _).
  exists cutoff, (map Remote.transaction_count rows),
    (map Remote.successful_txns rows), (map Remote.failed_txns rows).
  split; [ exact Hc | ].
  do 3 (split; [ cbn; now rewrite FrameFacts.map_Some_cells | ]).
  cbv zeta. rewrite Hn, Hs, Hf.
  set (win := Remote.window ds cutoff).
  assert (Hall : forall t, In t win -> In (Remote.date_of t) (Remote.days_of win)).
  { intros t Ht. apply DayFacts.days_of_In. eauto. }
  pose proof (DayFacts.days_of_NoDup win) as ND.
  split; [ | split ].
  - rewrite (map_ext _ (fun d => Remote.sum (map (fun _ => 1) (Remote.group win d))))
      by (intros; apply DayFacts.count_as_sum).
    rewrite (DayFacts.sum_over_groups _ win _ ND Hall).
    now rewrite <- DayFacts.count_as_sum.
  - rewrite (DayFacts.sum_over_groups _ win _ ND Hall).
    etransitivity;
      [ | apply (DayFacts.sum_flags_as_count
                   (fun t => match Remote.success t with
                             | Some true => true | _ => false end)) ].
    f_equal. apply map_ext. intros t. now destruct (Remote.success t) as [ [ | ] | ].
  - rewrite (DayFacts.sum_over_groups _ win _ ND Hall).
    etransitivity;
      [ | apply (DayFacts.sum_flags_as_count
                   (fun t => match Remote.success t with
                             | Some false => true | _ => false end)) ].
    f_equal. apply map_ext. intros t. now destruct (Remote.success t) as [ [ | ] | ].
Qed.

Lemma summary_counts_add_up_to_the_window_witness :
  exists cutoff cnt succ failed,
    Clock.cutoff_timestamp Clock.utc Sample.now (DInt 7) = inr cutoff /\
    Polars.col Sample.summary "transaction_count" = inr (Polars.Int64 (map Some cnt)) /\
    Polars.col Sample.summary "successful_txns" = inr (Polars.Int64 (map Some succ)) /\
    Polars.col Sample.summary "failed_txns" = inr (Polars.Int64 (map Some failed)) /\
    let win := Remote.window Sample.dataset cutoff in
    Remote.sum cnt = Z.of_nat (List.length win) /\
    Remote.sum succ
    = Z.of_nat (List.length
                  (filter (fun t => match Remote.success t with
                                    | Some true => true | _ => false end) win)) /\
    Remote.sum failed
    = Z.of_nat (List.length
                  (filter (fun t => match Remote.success t with
                                    | Some false => true | _ => false end) win)).
Proof.
  apply (summary_counts_add_up_to_the_window Clock.utc Sample.now Sample.dataset (DInt 7)
           [FetchingSummary (DInt 7); GeneratedSummary 2]).
  vm_compute. reflexivity.
Defined.

(** X5.  No row of the summary is empty: in every row
    [transaction_count >= 1] -- the success rate never divides by zero
    on a table the query produced -- and
    [1 <= unique_senders <= transaction_count]. *)
Theorem summary_rows_are_not_empty
  (zone : Clock.Zone) (now : Clock.datetime) (ds : Remote.Dataset) (days : Days)
  (tr : Trace) (df : Polars.DataFrame) :
  SuiDataFetcher.get_transaction_summary zone now ds days = (tr, inr df) ->
  exists cnt uniq,
    Polars.col df "transaction_count" = inr (Polars.Int64 (map Some cnt)) /\
    Polars.col df "unique_senders" = inr (Polars.Int64 (map Some uniq)) /\
    forall i c u,
      nth_error cnt i = Some c -> nth_error uniq i = Some u ->
      1 <= u <= c.
Proof.
  intros H.
  apply SummaryFacts.get_transaction_summary_inr in H.
  destruct H as (cutoff & rows & Hc & Hq & ->).
  apply DayFacts.transaction_summary_inr in Hq. cbv zeta in Hq.
  destruct Hq as (_ & Hn & _ & _ & Hu).
  exists (map Remote.transaction_count rows), (map Remote.unique_senders rows).
  do 2 (split; [ cbn; now rewrite FrameFacts.map_Some_cells | ]).
  rewrite Hn, Hu. intros i c u Hi Hj.
  rewrite nth_error_map in Hi, Hj.
  destruct (nth_error (Remote.days_of (Remote.window ds cutoff)) i) as [d | ] eqn:E;
    [ | discriminate ].
  simpl in Hi, Hj. injection Hi as <-. injection Hj as <-.
  apply nth_error_In, DayFacts.days_of_In in E. destruct E as (t & Ht & Ed).
  set (g := Remote.group (Remote.window ds cutoff) d).
  assert (Hg : In t g).
  { apply filter_In. split; [ exact Ht | now apply Z.eqb_eq ]. }
  assert (Hs : In (Remote.sender t) (nodup string_dec (map Remote.sender g))).
  { apply nodup_In. now apply in_map. }
  unfold Remote.count. split.
  - destruct (nodup string_dec (map Remote.sender g)); [ destruct Hs | simpl; lia ].
  - apply inj_le.
    rewrite <- (length_map Remote.sender g).
    apply NoDup_incl_length; [ apply NoDup_nodup | ].
    intros x Hx. now apply nodup_In in Hx.
Qed.

Lemma summary_rows_are_not_empty_witness :
  exists cnt uniq,
    Polars.col Sample.summary "transaction_count" = inr (Polars.Int64 (map Some cnt)) /\
    Polars.col Sample.summary "unique_senders" = inr (Polars.Int64 (map Some uniq)) /\
    forall i c u,
      nth_error cnt i = Some c -> nth_error uniq i = Some u ->
      1 <= u <= c.
Proof.
  apply (summary_rows_are_not_empty Clock.utc Sample.now Sample.dataset (DInt 7)
           [FetchingSummary (DInt 7); GeneratedSummary 2]).
  vm_compute. reflexivity.
Defined.

(** ** Calls that raise *)

Module RaiseFacts.

Import SuiDataFetcher.

Lemma cutoff_timestamp_out_of_range zone now days us :
  Clock.microseconds days = inr us ->
  ~ (Clock.MIN_DATETIME <= now - us <= Clock.MAX_DATETIME) ->
  Clock.cutoff_timestamp zone now days = inl OverflowError.
Proof.
  intros Hu H. unfold Clock.cutoff_timestamp, Clock.timedelta, Clock.datetime_sub.
  rewrite Hu. cbn [exc_bind].
  destruct (_ && _); cbn [exc_bind]; [ | reflexivity ].
  destruct (_ && _) eqn:R; cbn [exc_bind]; [ | reflexivity ].
  exfalso. apply H.
  apply andb_prop in R. destruct R as [R1 R2]. apply Z.leb_le in R1, R2. lia.
Qed.

Lemma limit_rows_negative {A} n (l : list A) :
  n < 0 -> Remote.limit_rows n l = inl QueryRejected.
Proof.
  intros H. unfold Remote.limit_rows.
  replace (0 <=? n) with false; [ reflexivity | ].
  symmetry. apply Z.leb_gt. exact H.
Qed.

(** The balance query fails in one way only. *)
Lemma wallet_balances_inl ds text limit e :
  Remote.wallet_balances ds text limit = inl e -> e = QueryRejected.
Proof.
  unfold Remote.wallet_balances.
  destruct (Remote.read_where text) as [w | ]; [ | congruence ].
  generalize (filter (Remote.satisfies w) (Remote.objects ds)). intros l.
  assert (M : forall e',
             Remote.map_exc
               (fun o => (k <- Remote.cast_int64 (Remote.balance o) ;; inr (k, o))%exc) l
             = inl e' -> e' = QueryRejected).
  { induction l as [ | o l IH]; simpl; intros e'; [ discriminate | ].
    unfold Remote.cast_int64 at 1.
    destruct (parse_int64 (Remote.balance o)); simpl; [ | congruence ].
    destruct (Remote.map_exc _ l) as [e0 | r] eqn:E; simpl; [ | discriminate ].
    intros H. injection H as <-. now apply IH. }
  destruct (Remote.map_exc _ l) as [e0 | keyed]; simpl.
  - intros H. injection H as <-. now apply M.
  - unfold Remote.limit_rows. destruct (_ && _); simpl; congruence.
Qed.

Lemma wallet_balances_negative ds text limit :
  limit < 0 -> Remote.wallet_balances ds text limit = inl QueryRejected.
Proof.
  intros H.
  destruct (Remote.wallet_balances ds text limit) as [e | rows] eqn:E.
  - now rewrite (wallet_balances_inl _ _ _ _ E).
  - apply BalanceFacts.wallet_balances_inr in E.
    destruct E as (_ & _ & _ & _ & _ & Hl & _). lia.
Qed.

End RaiseFacts.

(** X6.  When the window would start outside the years 1..9999 -- a
    million days back, a billion days either way -- the two operations
    with a time window raise [OverflowError] at once: nothing has been
    printed and no query has been sent. *)
Theorem window_out_of_range_raises_first
  (zone : Clock.Zone) (now : Clock.datetime) (ds : Remote.Dataset)
  (days : Days) (limit : Z) (us : Z) :
  Clock.microseconds days = inr us ->
  ~ (Clock.MIN_DATETIME <= now - us <= Clock.MAX_DATETIME) ->
  SuiDataFetcher.get_recent_transactions zone now ds days limit
  = ([], inl OverflowError) /\
  SuiDataFetcher.get_transaction_summary zone now ds days
  = ([], inl OverflowError).
Proof.
  intros Hu H.
  pose proof (RaiseFacts.cutoff_timestamp_out_of_range zone now days us Hu H) as C.
  unfold SuiDataFetcher.get_recent_transactions,
    SuiDataFetcher.get_transaction_summary.
  rewrite C. split; reflexivity.
Qed.

(** A million days back from November 2026. *)
Lemma window_out_of_range_raises_first_witness :
  SuiDataFetcher.get_recent_transactions Clock.utc Sample.now Sample.dataset
    (DInt 1000000) 20
  = ([], inl OverflowError) /\
  SuiDataFetcher.get_transaction_summary Clock.utc Sample.now Sample.dataset
    (DInt 1000000)
  = ([], inl OverflowError).
Proof.
  apply (window_out_of_range_raises_first Clock.utc Sample.now Sample.dataset
           (DInt 1000000) 20 86400000000000000).
  - reflexivity.
  - vm_compute. intros [H _]. apply H. reflexivity.
Defined.

(** X7.  The fetcher does not check [limit]: with a negative one the
    query is announced and sent all the same, the service refuses it,
    and the refusal leaves the operation as it came, after the first
    print and before the second. *)
Theorem negative_limit_is_sent_and_refused
  (zone : Clock.Zone) (now : Clock.datetime) (ds : Remote.Dataset) (days : Days)
  (addresses : option (list string)) (limit cutoff : Z) :
  limit < 0 ->
  Clock.cutoff_timestamp zone now days = inr cutoff ->
  SuiDataFetcher.get_recent_transactions zone now ds days limit
  = ([FetchingRecent days limit], inl QueryRejected) /\
  SuiDataFetcher.get_wallet_balances ds addresses limit
  = ([match SuiDataFetcher.truthy addresses with
      | Some l => FetchingBalancesFor (List.length l)
      | None => FetchingTop limit
      end], inl QueryRejected).
Proof.
  intros Hl Hc. split.
  - unfold SuiDataFetcher.get_recent_transactions. rewrite Hc.
    cbn [lift io_bind print].
    unfold Remote.recent_transactions.
    now rewrite RaiseFacts.limit_rows_negative.
  - unfold SuiDataFetcher.get_wallet_balances.
    rewrite RaiseFacts.wallet_balances_negative by exact Hl.
    now destruct (SuiDataFetcher.truthy addresses).
Qed.

Lemma negative_limit_is_sent_and_refused_witness :
  SuiDataFetcher.get_recent_transactions Clock.utc Sample.now Sample.dataset (DInt 7) (-1)
  = ([FetchingRecent (DInt 7) (-1)], inl QueryRejected) /\
  SuiDataFetcher.get_wallet_balances Sample.dataset None (-1)
  = ([match SuiDataFetcher.truthy None with
      | Some l => FetchingBalancesFor (List.length l)
      | None => FetchingTop (-1)
      end], inl QueryRejected).
Proof.
  apply (negative_limit_is_sent_and_refused
           Clock.utc Sample.now Sample.dataset (DInt 7) None (-1) 1793145600000).
  - reflexivity.
  - vm_compute. reflexivity.
Defined.

(** ** The addresses as a set *)

Module AddressFacts.

Import SuiDataFetcher.

Lemma snd_after_print {A} e (X : IO A) :
  snd (io_bind (print e) (fun _ => X)) = snd X.
Proof. unfold io_bind, print. now destruct X. Qed.

(** The table of a call is made from the answer of the service alone. *)
Lemma table_from_answer ds a1 a2 limit :
  Remote.wallet_balances ds (where_clause a1) limit
  = Remote.wallet_balances ds (where_clause a2) limit ->
  snd (get_wallet_balances ds a1 limit) = snd (get_wallet_balances ds a2 limit).
Proof.
  intros E. unfold get_wallet_balances.
  destruct (truthy a1), (truthy a2); rewrite !snd_after_print, E; reflexivity.
Qed.

End AddressFacts.

(** ** What is printed, and the shape of what is returned *)

Module ShapeFacts.

Import Polars SuiDataFetcher.

Lemma length_zip_with {A} (f : A -> A -> A) l1 l2 :
  List.length l1 = List.length l2 ->
  List.length (zip_with f l1 l2) = List.length l1.
Proof.
  revert l2. induction l1 as [ | a l1 IH]; intros [ | b l2]; simpl;
    try discriminate; auto.
Qed.

Lemma get_wallet_balances_trace ds addresses limit tr df :
  get_wallet_balances ds addresses limit = (tr, inr df) ->
  tr = [match truthy addresses with
        | Some l => FetchingBalancesFor (List.length l)
        | None => FetchingTop limit
        end; FetchedBalances (height df)].
Proof.
  unfold get_wallet_balances. intros H.
  apply io_bind_inr in H. destruct H as (t1 & u & t2 & Hp & H & ->).
  assert (t1 = [match truthy addresses with
                | Some l => FetchingBalancesFor (List.length l)
                | None => FetchingTop limit
                end]) as ->
    by (destruct (truthy addresses); now apply print_inr in Hp).
  run_back. subst. reflexivity.
Qed.

Lemma get_transaction_summary_trace zone now ds days tr df :
  get_transaction_summary zone now ds days = (tr, inr df) ->
  tr = [FetchingSummary days; GeneratedSummary (height df)].
Proof.
  unfold get_transaction_summary. intros H.
  run_back. subst. reflexivity.
Qed.

Lemma get_recent_transactions_trace zone now ds days limit tr df :
  get_recent_transactions zone now ds days limit = (tr, inr df) ->
  tr = [FetchingRecent days limit; FetchedTransactions (height df)].
Proof.
  unfold get_recent_transactions. intros H.
  run_back. subst. reflexivity.
Qed.

End ShapeFacts.

(** X9.  A table that is returned has the columns of the query in
    the order of the SELECT followed by the derived ones, all of the
    length of the table, and the call has printed two lines: the
    announcement, and the number of rows of the very table it returns. *)
Theorem returned_tables_have_fixed_columns :
  (forall zone now ds days limit tr df,
     SuiDataFetcher.get_recent_transactions zone now ds days limit = (tr, inr df) ->
     map fst df
     = ["transaction_digest"; "timestamp_ms"; "sender"; "gas_used"; "gas_price";
        "success"; "effects_status"; "checkpoint_sequence_number";
        "timestamp"]%string /\
     Forall (fun c => Polars.series_len (snd c) = Polars.height df) df /\
     tr = [FetchingRecent days limit; FetchedTransactions (Polars.height df)]) /\
  (forall ds addresses limit tr df,
     SuiDataFetcher.get_wallet_balances ds addresses limit = (tr, inr df) ->
     map fst df
     = ["owner"; "coin_type"; "balance"; "object_id";
        "balance_raw"; "balance_sui"]%string /\
     Forall (fun c => Polars.series_len (snd c) = Polars.height df) df /\
     tr = [match SuiDataFetcher.truthy addresses with
           | Some l => FetchingBalancesFor (List.length l)
           | None => FetchingTop limit
           end; FetchedBalances (Polars.height df)]) /\
  (forall zone now ds days tr df,
     SuiDataFetcher.get_transaction_summary zone now ds days = (tr, inr df) ->
     map fst df
     = ["date"; "transaction_count"; "unique_senders"; "avg_gas_used";
        "successful_txns"; "failed_txns"; "success_rate_pct"]%string /\
     Forall (fun c => Polars.series_len (snd c) = Polars.height df) df /\
     tr = [FetchingSummary days; GeneratedSummary (Polars.height df)]).
Proof.
  split; [ | split ].
  - intros zone now ds days limit tr df H.
    pose proof (ShapeFacts.get_recent_transactions_trace _ _ _ _ _ _ _ H) as T.
    apply RecentFacts.get_recent_transactions_inr in H.
    destruct H as (cutoff & rows & _ & _ & -> & _).
    split; [ reflexivity | split; [ | exact T ] ].
    repeat constructor; cbn [snd Polars.series_len];
      change (Polars.height _) with (List.length (Arrow.cells Remote.transaction_digest rows));
      unfold Arrow.cells; now rewrite !length_map.
  - intros ds addresses limit tr df H.
    pose proof (ShapeFacts.get_wallet_balances_trace _ _ _ _ _ H) as T.
    apply BalanceFacts.get_wallet_balances_inr in H.
    destruct H as (rows & raw & _ & F & ->).
    apply Forall2_length in F.
    split; [ reflexivity | split; [ | exact T ] ].
    repeat constructor; cbn [snd Polars.series_len];
      change (Polars.height _) with (List.length (Arrow.cells Remote.owner rows));
      unfold Arrow.cells; rewrite !length_map; auto.
  - intros zone now ds days tr df H.
    pose proof (ShapeFacts.get_transaction_summary_trace _ _ _ _ _ _ H) as T.
    apply SummaryFacts.get_transaction_summary_inr in H.
    destruct H as (cutoff & rows & _ & _ & ->).
    split; [ reflexivity | split; [ | exact T ] ].
    repeat constructor; cbn [snd Polars.series_len];
      change (Polars.height _) with (List.length (Arrow.cells Remote.date rows));
      unfold Arrow.cells; rewrite ?length_map; auto.
    rewrite ShapeFacts.length_zip_with; now rewrite !length_map.
Qed.

Lemma returned_tables_have_fixed_columns_witness :
  map fst Sample.summary
  = ["date"; "transaction_count"; "unique_senders"; "avg_gas_used";
     "successful_txns"; "failed_txns"; "success_rate_pct"]%string /\
  Forall (fun c => Polars.series_len (snd c) = Polars.height Sample.summary)
         Sample.summary /\
  [FetchingSummary (DInt 7); GeneratedSummary 2]
  = [FetchingSummary (DInt 7); GeneratedSummary (Polars.height Sample.summary)].
Proof.
  apply (proj2 (proj2 returned_tables_have_fixed_columns)
           Clock.utc Sample.now Sample.dataset (DInt 7)).
  vm_compute. reflexivity.
Defined.

(** ** The script's statistics *)

Module ScriptFacts.

Import Polars.

Local Open Scope string_scope.

Lemma length_keep {A} (m : list (option bool)) (l : list A) :
  List.length m = List.length l ->
  List.length (Frame.keep m l)
  = List.length (filter (fun x => match x with Some true => true | _ => false end) m).
Proof.
  revert l. induction m as [ | x m IH]; intros [ | a l]; simpl; try discriminate; auto.
  intros E. injection E as E.
  destruct x as [ [ | ] | ]; simpl; auto.
Qed.

Lemma series_len_keep m s :
  List.length m = series_len s ->
  series_len (Frame.keep_series m s)
  = List.length (filter (fun x => match x with Some true => true | _ => false end) m).
Proof. destruct s; simpl; apply length_keep. Qed.

Lemma count_eq_lit_true (flags : list (option bool)) :
  List.length (filter (fun x => match x with Some true => true | _ => false end)
                 (map (option_map (Bool.eqb true)) flags))
  = List.length (filter (fun x => match x with
                                  | Some true => true | _ => false end) flags).
Proof. induction flags as [ | [ [ | ] | ] flags IH]; simpl; auto. Qed.

Lemma count_eq_lit_false (flags : list (option bool)) :
  List.length (filter (fun x => match x with Some true => true | _ => false end)
                 (map (option_map (Bool.eqb false)) flags))
  = List.length (filter (fun x => match x with
                                  | Some false => true | _ => false end) flags).
Proof. induction flags as [ | [ [ | ] | ] flags IH]; simpl; auto. Qed.

(** Every flag is true, false or null. *)
Lemma flags_partition (flags : list (option bool)) :
  (List.length (filter (fun x => match x with
                                 | Some true => true | _ => false end) flags)
   + List.length (filter (fun x => match x with
                                   | Some false => true | _ => false end) flags)
   + List.length (filter (fun x => match x with
                                   | None => true | Some _ => false end) flags)
   = List.length flags)%nat.
Proof.
  induction flags as [ | [ [ | ] | ] flags IH]; simpl; lia.
Qed.

(** The statistics of any table with a column of flags as long as the
    table. *)
Lemma transaction_statistics_flags df flags :
  col df "success" = inr (Boolean flags) ->
  List.length flags = height df ->
  Main.transaction_statistics df
  = inr (height df,
         List.length (filter (fun x => match x with
                                       | Some true => true | _ => false end) flags),
         List.length (filter (fun x => match x with
                                       | Some false => true | _ => false end) flags)).
Proof.
  intros Hc Hl. unfold Main.transaction_statistics.
  rewrite Hc. cbn [exc_bind Frame.eq_lit Frame.filter].
  rewrite !length_map, Hl, Nat.eqb_refl. cbn [exc_bind].
  destruct df as [ | [n s] df].
  { discriminate Hc. }
  cbn [map height fst snd].
  rewrite !series_len_keep by (rewrite length_map; exact Hl).
  now rewrite count_eq_lit_true, count_eq_lit_false.
Qed.

End ScriptFacts.

(** X10.  The three numbers the script prints for the table of
    [get_recent_transactions] are well defined and account for every
    row: "Total fetched" is the height of the table and at most [limit],
    "Successful" and "Failed" count the rows whose flag is true and
    false, and what the two leave out of the total is the number of rows
    whose flag is null. *)
Theorem transaction_statistics_account_for_every_row
  (zone : Clock.Zone) (now : Clock.datetime) (ds : Remote.Dataset) (days : Days) (limit : Z)
  (tr : Trace) (df : Polars.DataFrame) :
  SuiDataFetcher.get_recent_transactions zone now ds days limit = (tr, inr df) ->
  exists flags successful failed,
    Polars.col df "success" = inr (Polars.Boolean flags) /\
    Main.transaction_statistics df = inr (Polars.height df, successful, failed) /\
    successful = List.length (filter (fun x => match x with
                                               | Some true => true | _ => false end) flags) /\
    failed = List.length (filter (fun x => match x with
                                           | Some false => true | _ => false end) flags) /\
    (successful + failed
     + List.length (filter (fun x => match x with
                                     | None => true | Some _ => false end) flags)
     = Polars.height df)%nat /\
    Z.of_nat (Polars.height df) <= limit.
Proof.
  intros H.
  apply RecentFacts.get_recent_transactions_inr in H.
  destruct H as (cutoff & rows & _ & Hq & -> & _).
  set (df := (Arrow.of_transactions rows ++ _)%list).
  assert (Hh : Polars.height df = List.length rows)
    by apply FrameFacts.length_cells.
  assert (Hc : Polars.col df "success" = inr (Polars.Boolean (map Remote.success rows)))
    by reflexivity.
  assert (Hl : List.length (map Remote.success rows) = Polars.height df)
    by now rewrite length_map.
  eexists. eexists. eexists.
  split; [ exact Hc | ].
  split; [ exact (ScriptFacts.transaction_statistics_flags df _ Hc Hl) | ].
  split; [ reflexivity | ].
  split; [ reflexivity | ].
  split.
  { rewrite <- Hl. apply ScriptFacts.flags_partition. }
  rewrite Hh. unfold Remote.recent_transactions in Hq.
  apply OrderFacts.limit_rows_inr in Hq. tauto.
Qed.

Lemma transaction_statistics_account_for_every_row_witness :
  exists flags successful failed,
    Polars.col Sample.recent "success" = inr (Polars.Boolean flags) /\
    Main.transaction_statistics Sample.recent
    = inr (Polars.height Sample.recent, successful, failed) /\
    successful = List.length (filter (fun x => match x with
                                               | Some true => true | _ => false end) flags) /\
    failed = List.length (filter (fun x => match x with
                                           | Some false => true | _ => false end) flags) /\
    (successful + failed
     + List.length (filter (fun x => match x with
                                     | None => true | Some _ => false end) flags)
     = Polars.height Sample.recent)%nat /\
    Z.of_nat (Polars.height Sample.recent) <= 3.
Proof.
  apply (transaction_statistics_account_for_every_row
           Clock.utc Sample.now Sample.dataset (DInt 7) 3
           [FetchingRecent (DInt 7) 3; FetchedTransactions 3]).
  vm_compute. reflexivity.
Defined.

(** ** The script's gas analysis *)

Module GasFacts.

Import Polars.

Local Open Scope string_scope.

Lemma map_strict_fails {A B} (f : A -> option B) l a :
  In a l -> f a = None -> map_strict f (map Some l) = inl InvalidOperation.
Proof.
  induction l as [ | x l IH]; intros Hin Hf; [ destruct Hin | ].
  simpl. destruct (f x) as [b | ] eqn:E; [ | reflexivity ].
  destruct Hin as [-> | Hin]; [ congruence | ].
  now rewrite (IH Hin Hf).
Qed.

Lemma map_strict_all {A B} (f : A -> option B) l out :
  Forall2 (fun a b => f a = Some b) l out ->
  map_strict f (map Some l) = inr (map Some out).
Proof.
  induction 1 as [ | a b l out Hab _ IH]; simpl; [ reflexivity | ].
  now rewrite Hab, IH.
Qed.

Lemma map2_bands (ints : list Z) :
  Frame.map2
    (fun x y : option bool =>
       Some (match x with
             | Some true => "Low"
             | _ => match y with
                    | Some true => "Medium"
                    | _ => "High"
                    end
             end))
    (map (option_map (fun v => Z.ltb v 1000000)) (map Some ints))
    (map (option_map (fun v => Z.ltb v 5000000)) (map Some ints))
  = map (fun g => Some (if Z.ltb g 1000000 then "Low"
                        else if Z.ltb g 5000000 then "Medium" else "High")) ints.
Proof.
  induction ints as [ | g ints IH]; simpl; [ reflexivity | ].
  rewrite IH. now destruct (Z.ltb g 1000000), (Z.ltb g 5000000).
Qed.

(** The analysis of any table with a column of gas strings that all
    read as integers and a column of flags of the same length. *)
Lemma gas_analysis_of_integers df gas flags ints :
  col df "gas_used" = inr (Utf8 (map Some gas)) ->
  col df "success" = inr (Boolean flags) ->
  List.length flags = List.length gas ->
  Forall2 (fun s g => parse_int64 s = Some g) gas ints ->
  Main.gas_analysis df
  = inr [("gas_used_int", Int64 (map Some ints));
         ("success", Boolean flags);
         ("gas_category",
          Utf8 (map (fun g => Some (if Z.ltb g 1000000 then "Low"
                                    else if Z.ltb g 5000000 then "Medium"
                                    else "High")) ints))].
Proof.
  intros Hg Hs Hl F.
  pose proof (Forall2_length F) as L.
  unfold Main.gas_analysis.
  rewrite Hg, Hs. cbn [exc_bind cast_int64].
  rewrite (map_strict_all _ _ _ F). cbn [exc_bind].
  unfold Frame.select. cbn [forallb snd series_len].
  rewrite !length_map, Hl, L, Nat.eqb_refl. cbn [andb exc_bind].
  change (col [("gas_used_int", Int64 (map Some ints)); ("success", Boolean flags)]
              "gas_used_int")
    with (@inr Error _ (Int64 (map Some ints))).
  cbn [exc_bind Frame.lt_lit].
  unfold Frame.when_then_otherwise.
  rewrite !length_map, Nat.eqb_refl. cbn [exc_bind].
  rewrite map2_bands.
  rewrite FrameFacts.with_columns_one
    by (cbn [series_len height]; now rewrite !length_map).
  reflexivity.
Qed.

Lemma gas_analysis_of_garbage df gas s :
  col df "gas_used" = inr (Utf8 (map Some gas)) ->
  In s gas -> parse_int64 s = None ->
  Main.gas_analysis df = inl InvalidOperation.
Proof.
  intros Hg Hin Hp. unfold Main.gas_analysis.
  rewrite Hg. cbn [exc_bind cast_int64].
  now rewrite (map_strict_fails _ _ _ Hin Hp).
Qed.

End GasFacts.

(** X11.  The gas analysis of the script, run on the table of
    [get_recent_transactions], raises as soon as one fetched [gas_used]
    does not read as a 64-bit integer; when they all do, it has one row
    per fetched transaction, with the flags as fetched, and the
    category of a row is Low below 1000000, Medium from there up to but
    not including 5000000, and High from there on. *)
Theorem gas_analysis_needs_integer_gas
  (zone : Clock.Zone) (now : Clock.datetime) (ds : Remote.Dataset) (days : Days) (limit : Z)
  (tr : Trace) (df : Polars.DataFrame) :
  SuiDataFetcher.get_recent_transactions zone now ds days limit = (tr, inr df) ->
  exists gas flags,
    Polars.col df "gas_used" = inr (Polars.Utf8 (map Some gas)) /\
    Polars.col df "success" = inr (Polars.Boolean flags) /\
    List.length gas = Polars.height df /\
    ((exists s, In s gas /\ parse_int64 s = None) ->
     Main.gas_analysis df = inl InvalidOperation) /\
    (forall ints,
       Forall2 (fun s g => parse_int64 s = Some g) gas ints ->
       exists cats,
         Main.gas_analysis df
         = inr [("gas_used_int"%string, Polars.Int64 (map Some ints));
                ("success"%string, Polars.Boolean flags);
                ("gas_category"%string, Polars.Utf8 (map Some cats))] /\
         Forall2 (fun g c =>
                    (c = "Low"%string <-> g < 1000000) /\
                    (c = "Medium"%string <-> 1000000 <= g < 5000000) /\
                    (c = "High"%string <-> 5000000 <= g)) ints cats).
Proof.
  intros H.
  apply RecentFacts.get_recent_transactions_inr in H.
  destruct H as (cutoff & rows & _ & _ & -> & _).
  set (df := (Arrow.of_transactions rows ++ _)%list).
  assert (Hg : Polars.col df "gas_used"
               = inr (Polars.Utf8 (map Some (map Remote.gas_used rows))))
    by (cbn; now rewrite FrameFacts.map_Some_cells).
  assert (Hs : Polars.col df "success" = inr (Polars.Boolean (map Remote.success rows)))
    by reflexivity.
  exists (map Remote.gas_used rows), (map Remote.success rows).
  split; [ exact Hg | split; [ exact Hs | ] ].
  split.
  { change (List.length (map Remote.gas_used rows)
            = List.length (Arrow.cells Remote.transaction_digest rows)).
    now rewrite FrameFacts.length_cells, length_map. }
  split.
  - intros (s & Hin & Hp). exact (GasFacts.gas_analysis_of_garbage df _ s Hg Hin Hp).
  - intros ints F.
    exists (map (fun g => if Z.ltb g 1000000 then "Low"%string
                          else if Z.ltb g 5000000 then "Medium"%string
                          else "High"%string) ints).
    split.
    + rewrite (GasFacts.gas_analysis_of_integers df _ _ ints Hg Hs); 
        [ now rewrite map_map | now rewrite !length_map | exact F ].
    + clear. induction ints as [ | g ints IH]; simpl; constructor; auto.
      destruct (Z.ltb_spec g 1000000); [ | destruct (Z.ltb_spec g 5000000) ];
        repeat split; intros; try discriminate; try lia; reflexivity.
Qed.

Lemma gas_analysis_needs_integer_gas_witness :
  exists gas flags,
    Polars.col Sample.recent "gas_used" = inr (Polars.Utf8 (map Some gas)) /\
    Polars.col Sample.recent "success" = inr (Polars.Boolean flags) /\
    List.length gas = Polars.height Sample.recent /\
    ((exists s, In s gas /\ parse_int64 s = None) ->
     Main.gas_analysis Sample.recent = inl InvalidOperation) /\
    (forall ints,
       Forall2 (fun s g => parse_int64 s = Some g) gas ints ->
       exists cats,
         Main.gas_analysis Sample.recent
         = inr [("gas_used_int"%string, Polars.Int64 (map Some ints));
                ("success"%string, Polars.Boolean flags);
                ("gas_category"%string, Polars.Utf8 (map Some cats))] /\
         Forall2 (fun g c =>
                    (c = "Low"%string <-> g < 1000000) /\
                    (c = "Medium"%string <-> 1000000 <= g < 5000000) /\
                    (c = "High"%string <-> 5000000 <= g)) ints cats).
Proof.
  apply (gas_analysis_needs_integer_gas
           Clock.utc Sample.now Sample.dataset (DInt 7) 3
           [FetchingRecent (DInt 7) 3; FetchedTransactions 3]).
  vm_compute. reflexivity.
Defined.

(** ** The two windowed operations together *)

(** X13.  At the same reading of the clock and for the same [days],
    the summary covers the table of recent transactions: the day of
    every row of that table is a date of the summary, and the
    [transaction_count]s add up to at least its number of rows. *)
Theorem summary_covers_recent_transactions
  (zone : Clock.Zone) (now : Clock.datetime) (ds : Remote.Dataset) (days : Days) (limit : Z)
  (tr tr' : Trace) (df sm : Polars.DataFrame) :
  SuiDataFetcher.get_recent_transactions zone now ds days limit = (tr, inr df) ->
  SuiDataFetcher.get_transaction_summary zone now ds days = (tr', inr sm) ->
  exists ts dates cnt,
    Polars.col df "timestamp_ms" = inr (Polars.Int64 (map Some ts)) /\
    Polars.col sm "date" = inr (Polars.Date (map Some dates)) /\
    Polars.col sm "transaction_count" = inr (Polars.Int64 (map Some cnt)) /\
    (forall t, In t ts -> In (t / 86400000) dates) /\
    Z.of_nat (Polars.height df) <= Remote.sum cnt.
Proof.
  intros H H'.
  apply RecentFacts.get_recent_transactions_inr in H.
  destruct H as (cutoff & rows & Hc & Hq & -> & _).
  apply SummaryFacts.get_transaction_summary_inr in H'.
  destruct H' as (cutoff' & srows & Hc' & Hq' & ->).
  rewrite Hc in Hc'. injection Hc' as <-.
  apply DayFacts.transaction_summary_inr in Hq'. cbv zeta in Hq'.
  destruct Hq' as (Hd & Hn & _).
  unfold Remote.recent_transactions in Hq.
  apply OrderFacts.limit_rows_inr in Hq. destruct Hq as (_ & Hrows & _).
  set (win := Remote.window ds cutoff) in *.
  assert (Hsub : forall r, In r rows -> In r win).
  { intros r Hr. subst rows. apply OrderFacts.firstn_In in Hr.
    now apply (proj1 (OrderFacts.order_by_desc_In Remote.timestamp_ms _ _)) in Hr. }
  exists (map Remote.timestamp_ms rows), (map Remote.date srows),
    (map Remote.transaction_count srows).
  split; [ cbn; now rewrite FrameFacts.map_Some_cells | ].
  split; [ cbn; now rewrite FrameFacts.map_Some_cells | ].
  split; [ cbn; now rewrite FrameFacts.map_Some_cells | ].
  split.
  - intros t Ht. apply in_map_iff in Ht. destruct Ht as (r & <- & Hr).
    rewrite Hd. apply DayFacts.days_of_In. exists r. split; [ now apply Hsub | reflexivity ].
  - assert (Hh : Polars.height
                   (Arrow.of_transactions rows
                    ++ [("timestamp"%string,
                         Polars.Datetime (Arrow.cells Remote.timestamp_ms rows))])
                 = List.length rows) by apply FrameFacts.length_cells.
    rewrite Hh, Hn.
    rewrite (map_ext _ (fun d => Remote.sum (map (fun _ => 1) (Remote.group win d))))
      by (intros; apply DayFacts.count_as_sum).
    rewrite (DayFacts.sum_over_groups _ win _ (DayFacts.days_of_NoDup win))
      by (intros t Ht; apply DayFacts.days_of_In; eauto).
    rewrite <- DayFacts.count_as_sum. unfold Remote.count.
    apply inj_le. subst rows.
    rewrite length_firstn.
    rewrite (Permutation_length (OrderFacts.order_by_desc_perm Remote.timestamp_ms win)).
    apply Nat.le_min_r.
Qed.

Lemma summary_covers_recent_transactions_witness :
  exists ts dates cnt,
    Polars.col Sample.recent "timestamp_ms" = inr (Polars.Int64 (map Some ts)) /\
    Polars.col Sample.summary "date" = inr (Polars.Date (map Some dates)) /\
    Polars.col Sample.summary "transaction_count" = inr (Polars.Int64 (map Some cnt)) /\
    (forall t, In t ts -> In (t / 86400000) dates) /\
    Z.of_nat (Polars.height Sample.recent) <= Remote.sum cnt.
Proof.
  apply (summary_covers_recent_transactions
           Clock.utc Sample.now Sample.dataset (DInt 7) 3
           [FetchingRecent (DInt 7) 3; FetchedTransactions 3]
           [FetchingSummary (DInt 7); GeneratedSummary 2]).
  - vm_compute. reflexivity.
  - vm_compute. reflexivity.
Defined.

(** ** One dataset, met in any order *)

Module BagFacts.

Import Remote.

Lemma perm_filter {A} (f : A -> bool) l l' :
  Permutation l l' -> Permutation (filter f l) (filter f l').
Proof.
  induction 1 as [ | x l l' _ IH | x y l | l l' l'' _ IH1 _ IH2]; simpl.
  - constructor.
  - destruct (f x); [ now constructor | assumption ].
  - destruct (f x), (f y); try reflexivity. apply perm_swap.
  - etransitivity; eassumption.
Qed.

Lemma sum_perm l l' : Permutation l l' -> sum l = sum l'.
Proof. induction 1; simpl; lia. Qed.

(** Numbers in descending order are in one order only. *)
Lemma descending_perm_eq (l l' : list Z) :
  StronglySorted (fun a b => b <= a) l ->
  StronglySorted (fun a b => b <= a) l' ->
  Permutation l l' -> l = l'.
Proof.
  intros S. revert l'. induction S as [ | a l S IH F]; intros l' S' P.
  - now apply Permutation_nil in P.
  - destruct S' as [ | b l' S' F'].
    + symmetry in P. now apply Permutation_nil in P.
    + assert (a = b).
      { assert (Ha : In a (b :: l')) by (apply (Permutation_in _ P); now left).
        assert (Hb : In b (a :: l))
          by (apply (Permutation_in _ (Permutation_sym P)); now left).
        rewrite Forall_forall in F, F'.
        destruct Ha as [-> | Ha]; [ reflexivity | ].
        destruct Hb as [-> | Hb]; [ reflexivity | ].
        pose proof (F' a Ha). pose proof (F b Hb). lia. }
      subst b. f_equal. apply IH; [ exact S' | ].
      now apply Permutation_cons_inv in P.
Qed.

(** However rows of equal key are ordered, the keys come in the same
    order. *)
Lemma sorted_perm_keys {A} (key : A -> Z) l l' :
  StronglySorted (desc key) l -> StronglySorted (desc key) l' ->
  Permutation l l' -> map key l = map key l'.
Proof.
  intros S S' P.
  apply descending_perm_eq.
  - now apply OrderFacts.sorted_keys.
  - now apply OrderFacts.sorted_keys.
  - now apply Permutation_map.
Qed.

(** And where no two rows have the same key, so do the rows. *)
Lemma same_keys_same_rows {A} (key : A -> Z) l l' :
  map key l = map key l' -> Permutation l l' -> NoDup (map key l) -> l = l'.
Proof.
  revert l'. induction l as [ | a l IH]; intros [ | b l'] E P N;
    try discriminate; [ reflexivity | ].
  simpl in E. injection E as Ek E.
  inversion N as [ | ? ? Hnotin N']; subst.
  assert (b = a).
  { assert (Hb : In b (a :: l))
      by (apply (Permutation_in _ (Permutation_sym P)); now left).
    destruct Hb as [<- | Hb]; [ reflexivity | ].
    exfalso. apply Hnotin. rewrite Ek. now apply in_map. }
  subst b. f_equal. apply IH; auto.
  now apply Permutation_cons_inv in P.
Qed.

Lemma order_by_desc_keys {A} (key : A -> Z) l l' :
  Permutation l l' ->
  map key (order_by_desc key l) = map key (order_by_desc key l').
Proof.
  intros P. apply sorted_perm_keys.
  - apply OrderFacts.order_by_desc_sorted.
  - apply OrderFacts.order_by_desc_sorted.
  - rewrite (OrderFacts.order_by_desc_perm key l),
      (OrderFacts.order_by_desc_perm key l'). exact P.
Qed.

Lemma order_by_desc_rows {A} (key : A -> Z) l l' :
  Permutation l l' -> NoDup (map key l) ->
  order_by_desc key l = order_by_desc key l'.
Proof.
  intros P N. apply (same_keys_same_rows key).
  - now apply order_by_desc_keys.
  - rewrite (OrderFacts.order_by_desc_perm key l),
      (OrderFacts.order_by_desc_perm key l'). exact P.
  - eapply Permutation_NoDup; [ | exact N ].
    apply Permutation_map. symmetry. apply OrderFacts.order_by_desc_perm.
Qed.

(** Rows that are in order already are left as they are. *)
Lemma order_by_desc_of_sorted {A} (key : A -> Z) l :
  StronglySorted (desc key) l -> order_by_desc key l = l.
Proof.
  induction 1 as [ | a l S IH F]; [ reflexivity | ].
  simpl. fold (order_by_desc key l). rewrite IH.
  destruct l as [ | b l]; [ reflexivity | ].
  simpl. inversion F as [ | ? ? Hab _]; subst. unfold desc in Hab.
  replace (key b <=? key a) with true; [ reflexivity | ].
  symmetry. now apply Z.leb_le.
Qed.

Lemma perm_split {A} (f : A -> bool) l :
  Permutation l (filter f l ++ filter (fun a => negb (f a)) l).
Proof.
  induction l as [ | a l IH]; [ reflexivity | ].
  simpl. destruct (f a); simpl.
  - now constructor.
  - rewrite IH at 1. apply Permutation_middle.
Qed.

(** The order of the list does stand for the choice of the service:
    whatever order the service gives to the rows of the window, among
    those that are descending, there is a way of meeting the rows of
    the table that gives it. *)
Lemma every_tie_order_is_an_order_of_meeting ds cutoff sorted :
  Permutation (window ds cutoff) sorted ->
  StronglySorted (desc timestamp_ms) sorted ->
  exists ds',
    same_content ds ds' /\
    order_by_desc timestamp_ms (window ds' cutoff) = sorted.
Proof.
  intros P S.
  set (f := fun t => cutoff <=? timestamp_ms t).
  exists {| transactions := sorted ++ filter (fun t => negb (f t)) (transactions ds);
            objects := objects ds |}.
  split; [ split; simpl; [ | reflexivity ] | ].
  - rewrite (perm_split f (transactions ds)) at 1.
    apply Permutation_app_tail. exact P.
  - unfold window. simpl. fold f. rewrite filter_app.
    assert (E1 : filter f sorted = sorted).
    { apply forallb_filter_id. apply forallb_forall. intros t Ht.
      apply (Permutation_in _ (Permutation_sym P)) in Ht.
      unfold window in Ht. now apply filter_In in Ht. }
    assert (E2 : filter f (filter (fun t => negb (f t)) (transactions ds)) = []).
    { induction (transactions ds) as [ | t l IH]; [ reflexivity | ].
      simpl. destruct (f t) eqn:E; simpl; [ exact IH | ].
      now rewrite E. }
    rewrite E1, E2, app_nil_r.
    now apply order_by_desc_of_sorted.
Qed.

(** *** The summary *)

Lemma map_exc_ext {A B} (f g : A -> Exc B) l :
  (forall a, f a = g a) -> map_exc f l = map_exc g l.
Proof.
  intros E. induction l as [ | a l IH]; simpl; [ reflexivity | ].
  now rewrite E, IH.
Qed.

(** A list of casts: all of them, or the refusal of the first that
    fails. *)
Lemma map_exc_cast {A} (text : A -> string) l :
  map_exc (fun a => cast_int64 (text a)) l
  = if forallb (fun a => match parse_int64 (text a) with
                         | Some _ => true | None => false end) l
    then inr (map (fun a => match parse_int64 (text a) with
                            | Some z => z | None => 0 end) l)
    else inl QueryRejected.
Proof.
  induction l as [ | a l IH]; simpl; [ reflexivity | ].
  unfold cast_int64 at 1.
  destruct (parse_int64 (text a)); simpl; [ | reflexivity ].
  rewrite IH. now destruct (forallb _ l).
Qed.

Lemma forallb_perm {A} (p : A -> bool) l l' :
  Permutation l l' -> forallb p l = forallb p l'.
Proof.
  intros P. apply eq_true_iff_eq. rewrite !forallb_forall.
  split; intros H x Hx; apply H.
  - exact (Permutation_in _ (Permutation_sym P) Hx).
  - exact (Permutation_in _ P Hx).
Qed.

Lemma count_nodup_perm (l l' : list string) :
  Permutation l l' ->
  count (nodup string_dec l) = count (nodup string_dec l').
Proof.
  intros P. unfold count. f_equal. apply Permutation_length.
  apply NoDup_Permutation; try apply NoDup_nodup.
  intros x. rewrite !nodup_In.
  split; apply Permutation_in; [ exact P | now symmetry ].
Qed.

(** The aggregates of a group do not depend on the order of its
    rows. *)
Lemma aggregate_perm d g g' :
  Permutation g g' -> aggregate d g = aggregate d g'.
Proof.
  intros P. unfold aggregate.
  rewrite !(map_exc_cast gas_used).
  rewrite (forallb_perm _ g g' P).
  destruct (forallb _ g'); [ | reflexivity ].
  cbn [exc_bind].
  assert (E1 : count g = count g')
    by (unfold count; now rewrite (Permutation_length P)).
  assert (E2 : count (nodup string_dec (map sender g))
               = count (nodup string_dec (map sender g')))
    by (apply count_nodup_perm; now apply Permutation_map).
  assert (E3 : forall h : Transaction -> Z, sum (map h g) = sum (map h g'))
    by (intros h; apply sum_perm; now apply Permutation_map).
  assert (E4 : forall h : Transaction -> Z,
             count (map h g) = count (map h g'))
    by (intros h; unfold count; now rewrite !length_map, (Permutation_length P)).
  now rewrite E1, E2, !E3, E4.
Qed.

Lemma days_of_perm win win' : Permutation win win' -> days_of win = days_of win'.
Proof.
  intros P. apply descending_perm_eq.
  - apply (OrderFacts.order_by_desc_sorted (fun d : Z => d)).
  - apply (OrderFacts.order_by_desc_sorted (fun d : Z => d)).
  - unfold days_of.
    rewrite !(OrderFacts.order_by_desc_perm (fun d : Z => d)).
    apply NoDup_Permutation; try apply NoDup_nodup.
    intros x. rewrite !nodup_In.
    split; apply Permutation_in; apply Permutation_map;
      [ exact P | now symmetry ].
Qed.

Lemma window_perm ds ds' cutoff :
  Permutation (transactions ds) (transactions ds') ->
  Permutation (window ds cutoff) (window ds' cutoff).
Proof. apply perm_filter. Qed.

(** The summary of a dataset is one, however its rows are met. *)
Lemma transaction_summary_perm ds ds' cutoff :
  Permutation (transactions ds) (transactions ds') ->
  transaction_summary ds cutoff = transaction_summary ds' cutoff.
Proof.
  intros P. apply (window_perm ds ds' cutoff) in P.
  unfold transaction_summary. cbv zeta.
  fold (days_of (window ds cutoff)). fold (days_of (window ds' cutoff)).
  rewrite (days_of_perm _ _ P).
  apply map_exc_ext. intros d.
  apply aggregate_perm. now apply perm_filter.
Qed.

(** *** The balances *)

Lemma map_exc_keyed_all (l : list Object) :
  map_exc (fun o => (k <- cast_int64 (balance o) ;; inr (k, o))%exc) l
  = if forallb (fun o => match parse_int64 (balance o) with
                         | Some _ => true | None => false end) l
    then inr (map (fun o => (match parse_int64 (balance o) with
                             | Some z => z | None => 0 end, o)) l)
    else inl QueryRejected.
Proof.
  induction l as [ | o l IH]; simpl; [ reflexivity | ].
  unfold cast_int64 at 1.
  destruct (parse_int64 (balance o)); simpl; [ | reflexivity ].
  rewrite IH. now destruct (forallb _ l).
Qed.

(** The rows the balance query sorts, for two filters of one meaning on
    one content: they fail together, or are the same rows. *)
Lemma keyed_perm ds ds' w w' :
  Permutation (objects ds) (objects ds') ->
  (forall o, satisfies w o = satisfies w' o) ->
  let keyed d v :=
    map_exc (fun o => (k <- cast_int64 (balance o) ;; inr (k, o))%exc)
            (filter (satisfies v) (objects d)) in
  (keyed ds w = inl QueryRejected /\ keyed ds' w' = inl QueryRejected) \/
  (exists l l', keyed ds w = inr l /\ keyed ds' w' = inr l' /\ Permutation l l' /\
                map snd l = filter (satisfies w) (objects ds)).
Proof.
  intros P E. cbv beta zeta.
  assert (Pf : Permutation (filter (satisfies w) (objects ds))
                           (filter (satisfies w') (objects ds'))).
  { rewrite (filter_ext _ _ E). now apply perm_filter. }
  rewrite !map_exc_keyed_all, (forallb_perm _ _ _ Pf).
  destruct (forallb _ (filter (satisfies w') (objects ds'))); [ right | now left ].
  eexists. eexists. split; [ reflexivity | split; [ reflexivity | split ] ].
  - now apply Permutation_map.
  - rewrite map_map. simpl. apply map_id.
Qed.

End BagFacts.

(** ** Two calls *)

Module CallFacts.

Import Polars SuiDataFetcher.

Lemma some_keys (L : list (Z * Remote.Object)) :
  Forall (fun p => parse_int64 (Remote.balance (snd p)) = Some (fst p)) L ->
  map (fun o => parse_int64 (Remote.balance o)) (map snd L) = map Some (map fst L).
Proof.
  induction 1 as [ | p L Hp _ IH]; simpl; [ reflexivity | ].
  now rewrite Hp, IH.
Qed.

(** The balances of two replies to two filters of one meaning on one
    content: the same, in the same order. *)
Lemma wallet_answer_keys ds ds' text text' w w' limit rows rows' :
  Permutation (Remote.objects ds) (Remote.objects ds') ->
  Remote.read_where text = Some w -> Remote.read_where text' = Some w' ->
  (forall o, Remote.satisfies w o = Remote.satisfies w' o) ->
  Remote.wallet_balances ds text limit = inr rows ->
  Remote.wallet_balances ds' text' limit = inr rows' ->
  map (fun o => parse_int64 (Remote.balance o)) rows
  = map (fun o => parse_int64 (Remote.balance o)) rows'.
Proof.
  intros P Hw Hw' E H H'.
  unfold Remote.wallet_balances in H, H'. rewrite Hw in H. rewrite Hw' in H'.
  destruct (BagFacts.keyed_perm ds ds' w w' P E) as [[K K'] | (l & l' & K & K' & Pl & _)];
    cbv beta zeta in K, K'; rewrite K in H; rewrite K' in H'.
  - discriminate.
  - cbn [exc_bind] in H, H'.
    apply BalanceFacts.map_exc_keyed in K, K'.
    destruct K as [_ F]. destruct K' as [_ F'].
    apply exc_bind_inr in H. destruct H as (L & HL & H). injection H as <-.
    apply exc_bind_inr in H'. destruct H' as (L' & HL' & H'). injection H' as <-.
    apply OrderFacts.limit_rows_inr in HL, HL'.
    destruct HL as (_ & -> & _). destruct HL' as (_ & -> & _).
    assert (G : forall k, Forall (fun p => parse_int64 (Remote.balance (snd p))
                                           = Some (fst p)) k ->
                Forall (fun p => parse_int64 (Remote.balance (snd p)) = Some (fst p))
                       (firstn (Z.to_nat limit) (Remote.order_by_desc fst k))).
    { intros k Fk. apply Forall_forall. intros p Hp.
      apply OrderFacts.firstn_In in Hp.
      apply (proj1 (OrderFacts.order_by_desc_In fst _ _)) in Hp.
      rewrite Forall_forall in Fk. now apply Fk. }
    rewrite (some_keys _ (G l F)), (some_keys _ (G l' F')).
    rewrite <- !firstn_map. now rewrite (BagFacts.order_by_desc_keys fst l l' Pl).
Qed.

Lemma NoDup_unwrap {A} (f : A -> option Z) l :
  NoDup (map f l) ->
  forallb (fun a => match f a with Some _ => true | None => false end) l = true ->
  NoDup (map (fun a => match f a with Some z => z | None => 0 end) l).
Proof.
  intros N All.
  assert (E : map f l = map Some (map (fun a => match f a with
                                                  | Some z => z | None => 0 end) l)).
  { rewrite map_map. apply map_ext_in. intros a Ha.
    rewrite forallb_forall in All. specialize (All a Ha).
    now destruct (f a). }
  rewrite E in N. now apply NoDup_map_inv in N.
Qed.

(** Where no two rows that pass the filter have the same balance, the
    replies are one. *)
Lemma wallet_answer_same ds ds' text text' w w' limit :
  Permutation (Remote.objects ds) (Remote.objects ds') ->
  Remote.read_where text = Some w -> Remote.read_where text' = Some w' ->
  (forall o, Remote.satisfies w o = Remote.satisfies w' o) ->
  NoDup (map (fun o => parse_int64 (Remote.balance o))
             (filter (Remote.satisfies w) (Remote.objects ds))) ->
  Remote.wallet_balances ds text limit = Remote.wallet_balances ds' text' limit.
Proof.
  intros P Hw Hw' E N.
  assert (Pf : Permutation (filter (Remote.satisfies w) (Remote.objects ds))
                           (filter (Remote.satisfies w') (Remote.objects ds'))).
  { rewrite (filter_ext _ _ E). now apply BagFacts.perm_filter. }
  unfold Remote.wallet_balances. rewrite Hw, Hw'.
  rewrite !BagFacts.map_exc_keyed_all, <- (BagFacts.forallb_perm _ _ _ Pf).
  destruct (forallb _ (filter (Remote.satisfies w) (Remote.objects ds))) eqn:All;
    [ | reflexivity ].
  cbn [exc_bind].
  set (h := fun o => (match parse_int64 (Remote.balance o) with
                      | Some z => z | None => 0 end, o)).
  rewrite (BagFacts.order_by_desc_rows fst
             (map h (filter (Remote.satisfies w) (Remote.objects ds)))
             (map h (filter (Remote.satisfies w') (Remote.objects ds')))).
  - reflexivity.
  - now apply Permutation_map.
  - rewrite map_map. cbn [h fst].
    now apply (NoDup_unwrap (fun o => parse_int64 (Remote.balance o))).
Qed.

(** The two derived columns of a table of balances, read off the
    reply. *)
Lemma balance_columns ds addresses limit tr df :
  get_wallet_balances ds addresses limit = (tr, inr df) ->
  exists rows raw,
    Remote.wallet_balances ds (where_clause addresses) limit = inr rows /\
    map Some raw = map (fun o => parse_int64 (Remote.balance o)) rows /\
    height df = List.length raw /\
    col df "balance_raw" = inr (Int64 (map Some raw)) /\
    col df "balance_sui"
    = inr (Float64 (map (fun z => Some (Float64.div (Float64.of_int z)
                                          (Float64.of_int 1000000000))) raw)).
Proof.
  intros H.
  apply BalanceFacts.get_wallet_balances_inr in H.
  destruct H as (rows & raw & Hq & F & ->).
  exists rows, raw.
  split; [ exact Hq | ].
  split.
  { clear - F. induction F as [ | o z rows raw Hz _ IH]; simpl; [ reflexivity | ].
    now rewrite Hz, IH. }
  split.
  { change (List.length (Arrow.cells Remote.owner rows) = List.length raw).
    rewrite FrameFacts.length_cells. apply (Forall2_length F). }
  split; reflexivity.
Qed.

Lemma map_Some_inj {A} (l l' : list A) : map Some l = map Some l' -> l = l'.
Proof.
  revert l'. induction l as [ | a l IH]; intros [ | b l'] E; try discriminate;
    [ reflexivity | ].
  simpl in E. injection E as -> E. f_equal. now apply IH.
Qed.

(** Two tables of balances for two filters of one meaning on one
    content. *)
Lemma balance_tables ds ds' a a' w w' limit tr df tr' df' :
  Permutation (Remote.objects ds) (Remote.objects ds') ->
  Remote.read_where (where_clause a) = Some w ->
  Remote.read_where (where_clause a') = Some w' ->
  (forall o, Remote.satisfies w o = Remote.satisfies w' o) ->
  get_wallet_balances ds a limit = (tr, inr df) ->
  get_wallet_balances ds' a' limit = (tr', inr df') ->
  height df = height df' /\
  col df "balance_raw" = col df' "balance_raw" /\
  col df "balance_sui" = col df' "balance_sui".
Proof.
  intros P Hw Hw' E H H'.
  apply balance_columns in H, H'.
  destruct H as (rows & raw & Hq & Hr & Hh & Hc1 & Hc2).
  destruct H' as (rows' & raw' & Hq' & Hr' & Hh' & Hc1' & Hc2').
  assert (raw = raw').
  { apply map_Some_inj. rewrite Hr, Hr'.
    exact (wallet_answer_keys ds ds' _ _ w w' limit rows rows' P Hw Hw' E Hq Hq'). }
  subst raw'. rewrite Hh, Hh', Hc1, Hc1', Hc2, Hc2'. auto.
Qed.

(** The read of a filter that got an answer. *)
Lemma answered_filter ds text limit rows :
  Remote.wallet_balances ds text limit = inr rows ->
  exists w, Remote.read_where text = Some w.
Proof.
  unfold Remote.wallet_balances.
  destruct (Remote.read_where text) as [w | ]; [ eauto | discriminate ].
Qed.

End CallFacts.

(** C2 (as amended).  No operation keeps a state.  Against a dataset of
    unchanged content, two calls with the same parameters give:
    for [get_transaction_summary], the same prints and the same table,
    cell for cell, provided the two readings of the clock lead to the
    same cutoff; for [get_recent_transactions], under the same proviso,
    and for [get_wallet_balances], the same prints, the same number of
    rows and the same values of the column the query sorts by
    ([timestamp_ms]; [balance_raw], hence [balance_sui]) -- and the same
    table, cell for cell, when no two rows of the window, or no two
    objects that pass the filter, have the same value there.  Rows of
    equal sort key come in an order the service chooses at each
    query. *)
Theorem same_dataset_same_cutoff_same_table (w1 w2 : World) :
  Remote.same_content (remote w1) (remote w2) ->
  (forall days,
     Clock.cutoff_timestamp (zone w1) (clock w1) days
     = Clock.cutoff_timestamp (zone w2) (clock w2) days ->
     SuiDataFetcher.get_transaction_summary (zone w1) (clock w1) (remote w1) days
     = SuiDataFetcher.get_transaction_summary (zone w2) (clock w2) (remote w2) days /\
     forall limit,
       (forall tr1 df1 tr2 df2,
          SuiDataFetcher.get_recent_transactions (zone w1) (clock w1) (remote w1) days limit
          = (tr1, inr df1) ->
          SuiDataFetcher.get_recent_transactions (zone w2) (clock w2) (remote w2) days limit
          = (tr2, inr df2) ->
          tr1 = tr2 /\
          Polars.height df1 = Polars.height df2 /\
          Polars.col df1 "timestamp_ms" = Polars.col df2 "timestamp_ms") /\
       (forall cutoff,
          Clock.cutoff_timestamp (zone w1) (clock w1) days = inr cutoff ->
          NoDup (map Remote.timestamp_ms (Remote.window (remote w1) cutoff)) ->
          SuiDataFetcher.get_recent_transactions (zone w1) (clock w1) (remote w1) days limit
          = SuiDataFetcher.get_recent_transactions (zone w2) (clock w2) (remote w2) days limit)) /\
  (forall addresses limit,
     (forall tr1 df1 tr2 df2,
        SuiDataFetcher.get_wallet_balances (remote w1) addresses limit = (tr1, inr df1) ->
        SuiDataFetcher.get_wallet_balances (remote w2) addresses limit = (tr2, inr df2) ->
        tr1 = tr2 /\
        Polars.height df1 = Polars.height df2 /\
        Polars.col df1 "balance_raw" = Polars.col df2 "balance_raw" /\
        Polars.col df1 "balance_sui" = Polars.col df2 "balance_sui") /\
     (forall w,
        Remote.read_where (SuiDataFetcher.where_clause addresses) = Some w ->
        NoDup (map (fun o => parse_int64 (Remote.balance o))
                   (filter (Remote.satisfies w) (Remote.objects (remote w1)))) ->
        SuiDataFetcher.get_wallet_balances (remote w1) addresses limit
        = SuiDataFetcher.get_wallet_balances (remote w2) addresses limit)).
Proof.
  intros [Pt Po]. split.
  - intros days C. split.
    + unfold SuiDataFetcher.get_transaction_summary. rewrite C.
      destruct (Clock.cutoff_timestamp (zone w2) (clock w2) days) as [e | cutoff];
        [ reflexivity | ].
      cbn [lift io_bind print].
      now rewrite (BagFacts.transaction_summary_perm _ _ cutoff Pt).
    + intros limit. split.
      * intros tr1 df1 tr2 df2 H1 H2.
        pose proof (ShapeFacts.get_recent_transactions_trace _ _ _ _ _ _ _ H1) as T1.
        pose proof (ShapeFacts.get_recent_transactions_trace _ _ _ _ _ _ _ H2) as T2.
        apply RecentFacts.get_recent_transactions_inr in H1, H2.
        destruct H1 as (c1 & rows1 & Hc1 & Hq1 & E1 & _).
        destruct H2 as (c2 & rows2 & Hc2 & Hq2 & E2 & _).
        rewrite C, Hc2 in Hc1. injection Hc1 as <-.
        unfold Remote.recent_transactions in Hq1, Hq2.
        apply OrderFacts.limit_rows_inr in Hq1, Hq2.
        destruct Hq1 as (_ & R1 & _). destruct Hq2 as (_ & R2 & _).
        assert (K : map Remote.timestamp_ms rows1 = map Remote.timestamp_ms rows2).
        { rewrite R1, R2, <- !firstn_map.
          now rewrite (BagFacts.order_by_desc_keys Remote.timestamp_ms _ _
                         (BagFacts.window_perm _ _ c2 Pt)). }
        assert (Hh : Polars.height df1 = Polars.height df2).
        { rewrite E1, E2.
          change (List.length (Arrow.cells Remote.transaction_digest rows1)
                  = List.length (Arrow.cells Remote.transaction_digest rows2)).
          rewrite !FrameFacts.length_cells.
          rewrite <- (length_map Remote.timestamp_ms rows1), K. apply length_map. }
        split; [ now rewrite T1, T2, Hh | ].
        split; [ exact Hh | ].
        rewrite E1, E2. cbn. now rewrite !FrameFacts.map_Some_cells, K.
      * intros cutoff Hc N.
        unfold SuiDataFetcher.get_recent_transactions.
        rewrite <- C, Hc. cbn [lift io_bind print].
        unfold Remote.recent_transactions.
        now rewrite (BagFacts.order_by_desc_rows Remote.timestamp_ms _ _
                       (BagFacts.window_perm _ _ cutoff Pt) N).
  - intros addresses limit. split.
    + intros tr1 df1 tr2 df2 H1 H2.
      pose proof (ShapeFacts.get_wallet_balances_trace _ _ _ _ _ H1) as T1.
      pose proof (ShapeFacts.get_wallet_balances_trace _ _ _ _ _ H2) as T2.
      destruct (CallFacts.balance_columns _ _ _ _ _ H1) as (rows & _ & Hq & _).
      destruct (CallFacts.answered_filter _ _ _ _ Hq) as [w Hw].
      destruct (CallFacts.balance_tables _ _ addresses addresses w w limit
                  _ _ _ _ Po Hw Hw (fun o => eq_refl) H1 H2) as (Hh & Hr & Hs).
      split; [ now rewrite T1, T2, Hh | auto ].
    + intros w Hw N.
      unfold SuiDataFetcher.get_wallet_balances.
      now rewrite (CallFacts.wallet_answer_same _ _ _ _ w w limit Po Hw Hw
                     (fun o => eq_refl) N).
Qed.

(** The sample dataset met in the opposite order, at the same instant. *)
Lemma same_dataset_same_cutoff_same_table_witness :
  (forall days,
     Clock.cutoff_timestamp Clock.utc Sample.now days
     = Clock.cutoff_timestamp Clock.utc Sample.now days ->
     SuiDataFetcher.get_transaction_summary Clock.utc Sample.now Sample.dataset days
     = SuiDataFetcher.get_transaction_summary Clock.utc Sample.now Sample.shuffled days /\
     forall limit,
       (forall tr1 df1 tr2 df2,
          SuiDataFetcher.get_recent_transactions Clock.utc Sample.now Sample.dataset days limit
          = (tr1, inr df1) ->
          SuiDataFetcher.get_recent_transactions Clock.utc Sample.now Sample.shuffled days limit
          = (tr2, inr df2) ->
          tr1 = tr2 /\
          Polars.height df1 = Polars.height df2 /\
          Polars.col df1 "timestamp_ms" = Polars.col df2 "timestamp_ms") /\
       (forall cutoff,
          Clock.cutoff_timestamp Clock.utc Sample.now days = inr cutoff ->
          NoDup (map Remote.timestamp_ms (Remote.window Sample.dataset cutoff)) ->
          SuiDataFetcher.get_recent_transactions Clock.utc Sample.now Sample.dataset days limit
          = SuiDataFetcher.get_recent_transactions Clock.utc Sample.now Sample.shuffled days limit)) /\
  (forall addresses limit,
     (forall tr1 df1 tr2 df2,
        SuiDataFetcher.get_wallet_balances Sample.dataset addresses limit = (tr1, inr df1) ->
        SuiDataFetcher.get_wallet_balances Sample.shuffled addresses limit = (tr2, inr df2) ->
        tr1 = tr2 /\
        Polars.height df1 = Polars.height df2 /\
        Polars.col df1 "balance_raw" = Polars.col df2 "balance_raw" /\
        Polars.col df1 "balance_sui" = Polars.col df2 "balance_sui") /\
     (forall w,
        Remote.read_where (SuiDataFetcher.where_clause addresses) = Some w ->
        NoDup (map (fun o => parse_int64 (Remote.balance o))
                   (filter (Remote.satisfies w) (Remote.objects Sample.dataset))) ->
        SuiDataFetcher.get_wallet_balances Sample.dataset addresses limit
        = SuiDataFetcher.get_wallet_balances Sample.shuffled addresses limit)).
Proof.
  apply (same_dataset_same_cutoff_same_table
           {| zone := Clock.utc; clock := Sample.now; remote := Sample.dataset |}
           {| zone := Clock.utc; clock := Sample.now; remote := Sample.shuffled |}).
  split; simpl; apply Permutation_rev.
Defined.

(** C2 as stated fails for the operations with a time window: the clock
    is read at each call.  On the sample dataset, the same call made one
    day later no longer returns the oldest transaction, and the summary
    loses its day. *)
Lemma later_call_returns_another_table :
  Polars.col
    (Sample.returned
       (SuiDataFetcher.get_recent_transactions Clock.utc Sample.now Sample.dataset
          (DInt 2) 10))
    "transaction_digest"
  = inr (Polars.Utf8 [Some "d1"; Some "d4"; Some "d2"; Some "d3"]%string) /\
  Polars.col
    (Sample.returned
       (SuiDataFetcher.get_recent_transactions Clock.utc Sample.tomorrow Sample.dataset
          (DInt 2) 10))
    "transaction_digest"
  = inr (Polars.Utf8 [Some "d1"; Some "d4"; Some "d2"]%string) /\
  SuiDataFetcher.get_recent_transactions Clock.utc Sample.now Sample.dataset (DInt 2) 10
  <> SuiDataFetcher.get_recent_transactions Clock.utc Sample.tomorrow Sample.dataset
       (DInt 2) 10 /\
  SuiDataFetcher.get_transaction_summary Clock.utc Sample.now Sample.dataset (DInt 2)
  <> SuiDataFetcher.get_transaction_summary Clock.utc Sample.tomorrow Sample.dataset
       (DInt 2).
Proof.
  split; [ vm_compute; reflexivity | ].
  split; [ vm_compute; reflexivity | ].
  split; vm_compute; discriminate.
Qed.

(** Two transactions of the sample dataset bear the same timestamp: met
    in the other order, they come in the other order. *)
Example rows_of_equal_key_may_swap :
  Polars.col
    (Sample.returned
       (SuiDataFetcher.get_recent_transactions Clock.utc Sample.now Sample.dataset
          (DInt 7) 3))
    "transaction_digest"
  = inr (Polars.Utf8 [Some "d1"; Some "d4"; Some "d2"]%string) /\
  Polars.col
    (Sample.returned
       (SuiDataFetcher.get_recent_transactions Clock.utc Sample.now Sample.shuffled
          (DInt 7) 3))
    "transaction_digest"
  = inr (Polars.Utf8 [Some "d4"; Some "d1"; Some "d2"]%string).
Proof. split; vm_compute; reflexivity. Qed.

(** X8.  For address lists free of quotes, backslashes and line breaks,
    the filter of [get_wallet_balances] means the set of the addresses:
    listed in another order or with repetitions, against the same
    content, the table has the same number of rows and the same
    balances in the same order, and it is the same table, cell for
    cell, when no two objects of these owners have the same balance. *)
Theorem table_depends_on_the_set_of_addresses
  (ds ds' : Remote.Dataset) (l l' : list string) (limit : Z) :
  Remote.same_content ds ds' ->
  l <> [] -> l' <> [] ->
  forallb Remote.plain l = true -> forallb Remote.plain l' = true ->
  (forall a, In a l <-> In a l') ->
  (forall o, Remote.satisfies (Remote.OwnerIn l) o
             = Remote.satisfies (Remote.OwnerIn l') o) /\
  (forall tr df tr' df',
     SuiDataFetcher.get_wallet_balances ds (Some l) limit = (tr, inr df) ->
     SuiDataFetcher.get_wallet_balances ds' (Some l') limit = (tr', inr df') ->
     Polars.height df = Polars.height df' /\
     Polars.col df "balance_raw" = Polars.col df' "balance_raw" /\
     Polars.col df "balance_sui" = Polars.col df' "balance_sui") /\
  (NoDup (map (fun o => parse_int64 (Remote.balance o))
              (filter (fun o => existsb (String.eqb (Remote.owner o)) l)
                      (Remote.objects ds))) ->
   snd (SuiDataFetcher.get_wallet_balances ds (Some l) limit)
   = snd (SuiDataFetcher.get_wallet_balances ds' (Some l') limit)).
Proof.
  intros [_ Po] N N' P P' S.
  pose proof (BalanceFacts.read_where_owner_in l N P) as R.
  pose proof (BalanceFacts.read_where_owner_in l' N' P') as R'.
  assert (E : forall o, Remote.satisfies (Remote.OwnerIn l) o
                        = Remote.satisfies (Remote.OwnerIn l') o).
  { intros o. apply eq_true_iff_eq.
    rewrite !BalanceFacts.satisfies_owner_in. apply S. }
  split; [ exact E | split ].
  - intros tr df tr' df' H H'.
    exact (CallFacts.balance_tables ds ds' (Some l) (Some l') _ _ limit
             _ _ _ _ Po R R' E H H').
  - intros ND.
    pose proof (CallFacts.wallet_answer_same ds ds' _ _ _ _ limit Po R R' E ND) as A.
    unfold SuiDataFetcher.get_wallet_balances.
    destruct (SuiDataFetcher.truthy (Some l)), (SuiDataFetcher.truthy (Some l'));
      rewrite !AddressFacts.snd_after_print, A; reflexivity.
Qed.

Lemma table_depends_on_the_set_of_addresses_witness :
  (forall o, Remote.satisfies (Remote.OwnerIn ["0xabc"; "a"]%string) o
             = Remote.satisfies (Remote.OwnerIn ["a"; "0xabc"; "a"]%string) o) /\
  (forall tr df tr' df',
     SuiDataFetcher.get_wallet_balances Sample.dataset (Some ["0xabc"; "a"]%string) 50
     = (tr, inr df) ->
     SuiDataFetcher.get_wallet_balances Sample.shuffled
       (Some ["a"; "0xabc"; "a"]%string) 50 = (tr', inr df') ->
     Polars.height df = Polars.height df' /\
     Polars.col df "balance_raw" = Polars.col df' "balance_raw" /\
     Polars.col df "balance_sui" = Polars.col df' "balance_sui") /\
  NoDup (map (fun o => parse_int64 (Remote.balance o))
             (filter (fun o => existsb (String.eqb (Remote.owner o))
                                       ["0xabc"; "a"]%string)
                     (Remote.objects Sample.dataset))) /\
  snd (SuiDataFetcher.get_wallet_balances Sample.dataset (Some ["0xabc"; "a"]%string) 50)
  = snd (SuiDataFetcher.get_wallet_balances Sample.shuffled
           (Some ["a"; "0xabc"; "a"]%string) 50).
Proof.
  assert (D : NoDup (map (fun o => parse_int64 (Remote.balance o))
                         (filter (fun o => existsb (String.eqb (Remote.owner o))
                                                   ["0xabc"; "a"]%string)
                                 (Remote.objects Sample.dataset)))).
  { vm_compute. repeat constructor; simpl; intuition discriminate. }
  destruct (table_depends_on_the_set_of_addresses
              Sample.dataset Sample.shuffled
              ["0xabc"; "a"]%string ["a"; "0xabc"; "a"]%string 50) as (E & T & F).
  - split; simpl; apply Permutation_rev.
  - discriminate.
  - discriminate.
  - reflexivity.
  - reflexivity.
  - intros a. simpl. tauto.
  - split; [ exact E | ]. split; [ exact T | ]. split; [ exact D | exact (F D) ].
Defined.
